(** * quart_github: a shallow embedding of the GitHub OAuth2 client

    The development follows [quart_github.py].  Python [str] and [bytes]
    values are Rocq strings (sequences of 8-bit characters; a [str] is
    identified with its UTF-8 encoding), Python dicts are association lists
    in insertion order, and the coroutines of class [GitHub] are computations
    in a state-and-exception monad over the observable world: the outbound
    HTTP calls, the invocations of the token getter and the invocations of
    the decorated route. *)

From Stdlib Require Import String Ascii List ZArith Bool Arith Lia DecimalString.
Import ListNotations.
Open Scope string_scope.

Set Warnings "-register-all".

(** ** Python strings *)

Module PyStr.

(** [s.startswith(p)] *)
Definition startswith (s p : string) : bool := String.prefix p s.

(** A UTF-8 continuation byte (10xxxxxx): it belongs to the character
    that starts before it. *)
Definition is_continuation (c : ascii) : bool :=
  Nat.leb 128 (nat_of_ascii c) && Nat.ltb (nat_of_ascii c) 192.

Fixpoint all_continuation (s : string) : bool :=
  match s with
  | EmptyString => true
  | String c rest => is_continuation c && all_continuation rest
  end.

(** One character: a first byte that is not a continuation byte, then
    continuation bytes only. *)
Definition one_char (s : string) : bool :=
  match s with
  | EmptyString => false
  | String c rest => negb (is_continuation c) && all_continuation rest
  end.

(** [s[:-1]]: everything but the last character, [''] for [''].  The last
    character starts at the last byte that is not a continuation byte. *)
Fixpoint drop_last (s : string) : string :=
  match s with
  | EmptyString => EmptyString
  | String c rest =>
      if all_continuation rest then EmptyString else String c (drop_last rest)
  end.

(** [c in s] for a single character [c]. *)
Fixpoint contains (c : ascii) (s : string) : bool :=
  match s with
  | EmptyString => false
  | String d rest => Ascii.eqb c d || contains c rest
  end.

(** [s.replace(a, b)] for single characters. *)
Fixpoint replace (a b : ascii) (s : string) : string :=
  match s with
  | EmptyString => EmptyString
  | String c rest => String (if Ascii.eqb c a then b else c) (replace a b rest)
  end.

(** [s.split(sep)] for a single-character separator: never empty. *)
Fixpoint split (sep : ascii) (s : string) : list string :=
  match s with
  | EmptyString => [EmptyString]
  | String c rest =>
      if Ascii.eqb c sep then EmptyString :: split sep rest
      else match split sep rest with
           | [] => [String c EmptyString]
           | w :: ws => String c w :: ws
           end
  end.

(** [s.split(sep, 1)]: [None] when [sep] does not occur (Python gives a
    one-element list), the two sides of its first occurrence otherwise. *)
Fixpoint split1 (sep : ascii) (s : string) : option (string * string) :=
  match s with
  | EmptyString => None
  | String c rest =>
      if Ascii.eqb c sep then Some (EmptyString, rest)
      else match split1 sep rest with
           | Some (l, r) => Some (String c l, r)
           | None => None
           end
  end.

(** [sep.join(l)] *)
Fixpoint join (sep : string) (l : list string) : string :=
  match l with
  | [] => EmptyString
  | [x] => x
  | x :: rest => x ++ sep ++ join sep rest
  end.

(** Truth value of a [str]: non-empty. *)
Definition truthy (s : string) : bool :=
  match s with EmptyString => false | _ => true end.

(** A byte below 128. *)
Definition is_ascii (c : ascii) : bool := Nat.ltb (nat_of_ascii c) 128.

Fixpoint all_ascii (s : string) : bool :=
  match s with
  | EmptyString => true
  | String c rest => is_ascii c && all_ascii rest
  end.

(** The characters of a [str], as iteration yields them: a UTF-8
    continuation byte stays with the character before it. *)
Fixpoint chars (s : string) : list string :=
  match s with
  | EmptyString => []
  | String c rest =>
      match chars rest with
      | w :: ws =>
          match rest with
          | String d _ => if is_continuation d then String c w :: ws
                          else String c EmptyString :: w :: ws
          | EmptyString => [String c EmptyString]
          end
      | [] => [String c EmptyString]
      end
  end.

End PyStr.

(** ** Python dicts, in insertion order *)

Module PyDict.

Definition dict (V : Type) : Type := list (string * V).

(** [d.get(k)] *)
Fixpoint get {V} (d : dict V) (k : string) : option V :=
  match d with
  | [] => None
  | (k', v) :: rest => if String.eqb k' k then Some v else get rest k
  end.

(** [k in d] *)
Definition mem {V} (d : dict V) (k : string) : bool :=
  match get d k with Some _ => true | None => false end.

(** [d[k] = v]: an existing key keeps its position, a new key goes last. *)
Fixpoint set {V} (d : dict V) (k : string) (v : V) : dict V :=
  match d with
  | [] => [(k, v)]
  | (k', v') :: rest =>
      if String.eqb k' k then (k', v) :: rest else (k', v') :: set rest k v
  end.

Definition keys {V} (d : dict V) : list string := map fst d.

(** Truth value of a dict: non-empty. *)
Definition truthy {V} (d : dict V) : bool :=
  match d with [] => false | _ => true end.

End PyDict.

Import PyDict.

(** ** Decoded JSON

    What [response.json()] returns.  A JSON number is an integer here:
    numbers with a fraction or an exponent (Python floats) are not
    represented.  [JObj] is a Python dict, keys in insertion order. *)

Inductive json : Type :=
| JNull
| JBool (b : bool)
| JInt (n : Z)
| JStr (s : string)
| JArr (l : list json)
| JObj (d : list (string * json)).

(** [isinstance(body, list)] *)
Definition is_list (v : json) : bool :=
  match v with JArr _ => true | _ => false end.

(** [isinstance(body, dict) and 'items' in body] *)
Definition is_items_dict (v : json) : bool :=
  match v with JObj d => mem d "items" | _ => false end.

(** ** HTTP responses and calls

    A response as the client reads it: [status_code], the value of
    [headers.get('Content-Type')], the [links] mapping parsed from the
    [Link] header (relation to link dict), the outcome of [json()] ([None]
    when the body does not decode) and the raw [content]. *)

Record Response := {
  status_code : Z;
  content_type : option string;
  links : dict (dict string);
  json_body : option json;
  content : string
}.

(** The arguments of one call on the [httpx.AsyncClient] session. *)
Record HttpCall := {
  call_method : string;
  call_url : string;
  call_follow_redirects : bool;
  call_headers : option (dict string);
  call_data : option (dict (option string));
  call_kwargs : dict string
}.

(** ** Exceptions and outcomes *)

Inductive exn : Type :=
| GitHubError (response : Response)
| NotImplementedError
| TypeError
| KeyError (key : string)
| IndexError
| JSONDecodeError
| UnicodeDecodeError
| UnicodeEncodeError.

(** The outcome of a computation: a value, a raised exception, or [Diverge]
    when the pagination loop has not finished within the given number of
    iterations. *)
Inductive result (A : Type) : Type :=
| Return (a : A)
| Raise (e : exn)
| Diverge.

Arguments Return {A} a.
Arguments Raise {A} e.
Arguments Diverge {A}.

(** ** [urllib.parse]

    The library functions the client calls, at the arguments it calls them
    with: [urlencode] on a dict of [str] ([doseq] off, [quote_plus] as
    quoting function) and [parse_qs] on [bytes] (blank values dropped, no
    strict parsing, separator [&]). *)

Module Urllib.

(** The characters [quote] never escapes: letters, digits and [_.-~]. *)
Definition always_safe (c : ascii) : bool :=
  let n := nat_of_ascii c in
  (Nat.leb 65 n && Nat.leb n 90) || (Nat.leb 97 n && Nat.leb n 122) ||
  (Nat.leb 48 n && Nat.leb n 57) ||
  Ascii.eqb c "_" || Ascii.eqb c "." || Ascii.eqb c "-" || Ascii.eqb c "~".

Definition hex_digit (n : nat) : ascii :=
  if Nat.ltb n 10 then ascii_of_nat (48 + n) else ascii_of_nat (55 + n).

(** ['%{:02X}'.format(c)] *)
Definition percent (c : ascii) : string :=
  let n := nat_of_ascii c in
  String "%" (String (hex_digit (n / 16)) (String (hex_digit (n mod 16)) EmptyString)).

(** [quote(s, safe)]: every byte outside [always_safe] and [safe] becomes
    [%XX]. *)
Fixpoint quote (safe : string) (s : string) : string :=
  match s with
  | EmptyString => EmptyString
  | String c rest =>
      (if always_safe c || PyStr.contains c safe
       then String c EmptyString else percent c) ++ quote safe rest
  end.

(** [quote_plus(s)] *)
Definition quote_plus (s : string) : string :=
  if PyStr.contains " " s
  then PyStr.replace " " "+" (quote " " s)
  else quote "" s.

(** [urlencode(query)] *)
Definition urlencode (query : dict string) : string :=
  PyStr.join "&" (map (fun kv => quote_plus (fst kv) ++ "=" ++ quote_plus (snd kv)) query).

(** The value of a hexadecimal digit, either case. *)
Definition hex_value (c : ascii) : option nat :=
  let n := nat_of_ascii c in
  if Nat.leb 48 n && Nat.leb n 57 then Some (n - 48)
  else if Nat.leb 65 n && Nat.leb n 70 then Some (n - 55)
  else if Nat.leb 97 n && Nat.leb n 102 then Some (n - 87)
  else None.

(** [unquote_to_bytes(s)]: [%XX] becomes the byte, a [%] not followed by
    two hexadecimal digits stays. *)
Fixpoint unquote_to_bytes (s : string) : string :=
  match s with
  | EmptyString => EmptyString
  | String c rest =>
      if Ascii.eqb c "%" then
        match rest with
        | String a (String b rest') =>
            match hex_value a, hex_value b with
            | Some x, Some y => String (ascii_of_nat (16 * x + y)) (unquote_to_bytes rest')
            | _, _ => String c (unquote_to_bytes rest)
            end
        | _ => String c (unquote_to_bytes rest)
        end
      else String c (unquote_to_bytes rest)
  end.

(** One field of [parse_qsl] on [bytes]: [+] becomes a space, escapes are
    undone and decoded as UTF-8 (errors replaced), and the text is coerced
    back to [bytes] with the strict ASCII codec, which raises as soon as an
    escape produced a byte above 127. *)
Definition unquote_field (s : string) : result string :=
  let b := unquote_to_bytes (PyStr.replace "+" " " s) in
  if PyStr.all_ascii b then Return b else Raise UnicodeEncodeError.

(** [parse_qsl] over the fields between separators. *)
Fixpoint parse_fields (fields : list string) : result (list (string * string)) :=
  match fields with
  | [] => Return []
  | name_value :: rest =>
      match PyStr.split1 "=" name_value with
      | None => parse_fields rest
      | Some (n, v) =>
          if PyStr.truthy v then
            match unquote_field n with
            | Return name =>
                match unquote_field v with
                | Return value =>
                    match parse_fields rest with
                    | Return r => Return ((name, value) :: r)
                    | Raise e => Raise e
                    | Diverge => Diverge
                    end
                | Raise e => Raise e
                | Diverge => Diverge
                end
            | Raise e => Raise e
            | Diverge => Diverge
            end
          else parse_fields rest
      end
  end.

(** [parse_qsl(qs)] for [qs : bytes]: the argument is first decoded with the
    strict ASCII codec. *)
Definition parse_qsl (qs : string) : result (list (string * string)) :=
  if PyStr.all_ascii qs then parse_fields (PyStr.split "&" qs)
  else Raise UnicodeDecodeError.

(** The grouping loop of [parse_qs]: values of one name in order of
    appearance, names in order of first appearance. *)
Fixpoint group (pairs : list (string * string)) (parsed : dict (list string))
  : dict (list string) :=
  match pairs with
  | [] => parsed
  | (name, value) :: rest =>
      match get parsed name with
      | Some vs => group rest (set parsed name (vs ++ [value])%list)
      | None => group rest (set parsed name [value])
      end
  end.

(** [parse_qs(qs)] *)
Definition parse_qs (qs : string) : result (dict (list string)) :=
  match parse_qsl qs with
  | Return pairs => Return (group pairs [])
  | Raise e => Raise e
  | Diverge => Diverge
  end.

End Urllib.

(** ** Python operators on decoded JSON *)

(** The integer a number stands for in arithmetic ([bool] is a subclass of
    [int]). *)
Definition as_int (v : json) : option Z :=
  match v with
  | JInt n => Some n
  | JBool b => Some (if b then 1 else 0)%Z
  | _ => None
  end.

(** [a += b]: the new value of [a], or the exception raised.  A list is
    extended by any iterable (the elements of a list, the characters of a
    string, the keys of a dict); strings concatenate; integers add; every
    other combination is a [TypeError]. *)
Definition iadd (a b : json) : result json :=
  match a with
  | JArr l =>
      match b with
      | JArr l' => Return (JArr (l ++ l'))
      | JStr s => Return (JArr (l ++ map JStr (PyStr.chars s)))
      | JObj d => Return (JArr (l ++ map JStr (keys d)))
      | _ => Raise TypeError
      end
  | JStr s =>
      match b with
      | JStr s' => Return (JStr (s ++ s'))
      | _ => Raise TypeError
      end
  | JInt _ | JBool _ =>
      match as_int a, as_int b with
      | Some x, Some y => Return (JInt (x + y))
      | _, _ => Raise TypeError
      end
  | JNull | JObj _ => Raise TypeError
  end.

(** [a[k]] for a string key [k]. *)
Definition getitem (a : json) (k : string) : result json :=
  match a with
  | JObj d =>
      match get d k with
      | Some v => Return v
      | None => Raise (KeyError k)
      end
  | _ => Raise TypeError
  end.

(** [a[k] = v] for a string key [k]. *)
Definition setitem (a : json) (k : string) (v : json) : result json :=
  match a with
  | JObj d => Return (JObj (set d k v))
  | _ => Raise TypeError
  end.

(** ['%s' % t] for a token: the string itself, ['None'] for [None]. *)
Definition percent_s (t : option string) : string :=
  match t with Some s => s | None => "None" end.

(** ** The observable world and the monad of coroutines *)

(** [getter_calls] counts the invocations of the registered token getter,
    [exchanges] lists the calls made on the HTTP session with their
    responses, oldest first, and [route_calls] lists the arguments the
    decorated route was invoked with. *)
Record World := {
  getter_calls : nat;
  exchanges : list (HttpCall * Response);
  route_calls : list (option string)
}.

Definition M (A : Type) : Type := World -> result A * World.

Definition ret {A} (a : A) : M A := fun w => (Return a, w).

Definition raise {A} (e : exn) : M A := fun w => (Raise e, w).

Definition diverge {A} : M A := fun w => (Diverge, w).

Definition bind {A B} (m : M A) (k : A -> M B) : M B :=
  fun w =>
    match m w with
    | (Return a, w') => k a w'
    | (Raise e, w') => (Raise e, w')
    | (Diverge, w') => (Diverge, w')
    end.

(** A pure computation that may raise. *)
Definition lift {A} (r : result A) : M A := fun w => (r, w).

Notation "x <- m ;; k" := (bind m (fun x => k))
  (at level 61, m at next level, right associativity).

(** ** The client object

    The attributes [init_app] sets, the HTTP session and the token getter.
    [session] answers a call given the exchanges made before it.
    [get_access_token] is [None] until [access_token_getter] registers a
    function; a registered getter returns a token or [None], and its answer
    may change from one invocation to the next (it is given the number of
    earlier invocations). *)

Definition BASE_URL : string := "https://api.github.com/".
Definition BASE_AUTH_URL : string := "https://github.com/login/oauth/".

Record GitHub := {
  client_id : string;
  client_secret : string;
  base_url : string;
  auth_url : string;
  session : list (HttpCall * Response) -> HttpCall -> Response;
  get_access_token : option (nat -> option string)
}.

(** [GitHub.access_token_getter]: registering replaces the getter. *)
Definition access_token_getter (self : GitHub) (f : nat -> option string) : GitHub :=
  {| client_id := client_id self;
     client_secret := client_secret self;
     base_url := base_url self;
     auth_url := auth_url self;
     session := session self;
     get_access_token := Some f |}.

(** [await self.session.request(...)] and [await self.session.post(...)]:
    the call is answered and recorded. *)
Definition session_call (self : GitHub) (c : HttpCall) : M Response :=
  fun w =>
    let r := session self (exchanges w) c in
    (Return r,
     {| getter_calls := getter_calls w;
        exchanges := exchanges w ++ [(c, r)];
        route_calls := route_calls w |}).

(** [await self.get_access_token()]: [NotImplementedError] unless a getter
    is registered. *)
Definition call_get_access_token (self : GitHub) : M (option string) :=
  fun w =>
    match get_access_token self with
    | None => (Raise NotImplementedError, w)
    | Some f =>
        (Return (f (getter_calls w)),
         {| getter_calls := S (getter_calls w);
            exchanges := exchanges w;
            route_calls := route_calls w |})
    end.

(** ** Response classification *)

Definition is_valid_response (response : Response) : bool :=
  (200 <=? status_code response)%Z && (status_code response <=? 299)%Z.

Definition is_json_response (response : Response) : bool :=
  let content_type :=
    match content_type response with Some v => v | None => "" end in
  String.eqb content_type "application/json" ||
  PyStr.startswith content_type "application/json;".

(** [response.json()] *)
Definition response_json (response : Response) : result json :=
  match json_body response with
  | Some v => Return v
  | None => Raise JSONDecodeError
  end.

(** ** [GitHub.authorize]

    The signature types [scope] as a list of strings, the docstring as a
    string ([github.authorize(scope="user,repo")]).  The method asks two
    things of it: its truth value ([if scope:]) and, inside [urlencode], its
    text ([str(v)]).  The result stands for [redirect(url)]: a 302 response
    whose [Location] is [url]. *)

(** A Python value, for what [authorize] and [urlencode] ask of it. *)
Class PyValue (A : Type) := {
  py_bool : A -> bool;
  py_str : A -> string
}.

(** A [str]: true unless empty; its text is itself. *)
#[export] Instance str_value : PyValue string :=
  {| py_bool := PyStr.truthy; py_str := fun s => s |}.

(** A list of [str]: true unless empty; its text is [[x, y]] with the
    [repr] of each element, separated by a comma and a space.  [repr] of a
    [str] (the quotes, the escapes, which characters are printable) belongs
    to the interpreter and is a parameter. *)
Definition list_value (repr : string -> string) : PyValue (list string) :=
  {| py_bool := fun l => match l with [] => false | _ :: _ => true end;
     py_str := fun l => "[" ++ PyStr.join ", " (map repr l) ++ "]" |}.

Record Redirect := { location : string; redirect_code : Z }.

Definition redirect (url : string) : Redirect :=
  {| location := url; redirect_code := 302 |}.

(** The [params] dict [authorize] builds: an argument that is [None] or
    empty is left out.  [urlencode] quotes [str(v)] of every value, so the
    dict holds the text of [scope] from the start. *)
Definition authorize_params {A : Type} {PV : PyValue A} (self : GitHub)
  (scope : option A) (redirect_uri state : option string) : dict string :=
  let params := [("client_id", client_id self)] in
  let params :=
    match scope with
    | Some v => if py_bool v then set params "scope" (py_str v) else params
    | None => params
    end in
  let params :=
    match redirect_uri with
    | Some v => if PyStr.truthy v then set params "redirect_uri" v else params
    | None => params
    end in
  let params :=
    match state with
    | Some v => if PyStr.truthy v then set params "state" v else params
    | None => params
    end in
  params.

Definition authorize {A : Type} {PV : PyValue A} (self : GitHub)
  (scope : option A) (redirect_uri state : option string) : Redirect :=
  let params := authorize_params self scope redirect_uri state in
  let url := auth_url self ++ "authorize?" ++ Urllib.urlencode params in
  redirect url.

(** ** The authorization callback *)

(** [b.decode('ascii')] *)
Definition decode_ascii (b : string) : result string :=
  if PyStr.all_ascii b then Return b else Raise UnicodeDecodeError.

(** [l[0]] *)
Definition first {A} (l : list A) : result A :=
  match l with
  | x :: _ => Return x
  | [] => Raise IndexError
  end.

(** [GitHub._handle_response]: [args] is [request.args], the query
    parameters of the request being handled. *)
Definition _handle_response (self : GitHub) (args : dict string) : M (option string) :=
  let params :=
    [("code", get args "code");
     ("client_id", Some (client_id self));
     ("client_secret", Some (client_secret self))] in
  let url := auth_url self ++ "access_token" in
  response <- session_call self
    {| call_method := "POST"; call_url := url; call_follow_redirects := false;
       call_headers := None; call_data := Some params; call_kwargs := [] |} ;;
  data <- lift (Urllib.parse_qs (content response)) ;;
  token <- lift (first match get data "access_token" with
                       | Some values => map Some values
                       | None => [None]
                       end) ;;
  match token with
  | None => ret None
  | Some token => s <- lift (decode_ascii token) ;; ret (Some s)
  end.

(** [GitHub._handle_invalid_response]: [pass]. *)
Definition _handle_invalid_response (self : GitHub) : M (option string) :=
  ret None.

(** Entering the decorated route with [data] as first argument. *)
Definition call_route {Args R} (f : option string -> Args -> M R)
  (data : option string) (args : Args) : M R :=
  fun w =>
    f data args
      {| getter_calls := getter_calls w;
         exchanges := exchanges w;
         route_calls := route_calls w ++ [data] |}.

(** [GitHub.authorized_handler]: the [decorated] coroutine, run for a
    request whose query parameters are [request_args]. *)
Definition authorized_handler {Args R} (self : GitHub)
  (f : option string -> Args -> M R) (request_args : dict string) (args : Args) : M R :=
  data <- (if mem request_args "code"
           then _handle_response self request_args
           else _handle_invalid_response self) ;;
  call_route f data args.

(** ** Requests *)

(** The keyword arguments [raw_request] receives besides [access_token]:
    [headers] may be missing, [None] or a dict; the rest goes to the session
    unchanged. *)
Record Kwargs := {
  kw_headers : option (option (dict string));
  kw_extra : dict string
}.

Definition _pop_headers (kwargs : Kwargs) : dict string :=
  match kw_headers kwargs with
  | None => []
  | Some None => []
  | Some (Some headers) => headers
  end.

Definition _get_authorization_header (self : GitHub) (access_token : option string) : M string :=
  access_token <- match access_token with
                  | None => call_get_access_token self
                  | Some t => ret (Some t)
                  end ;;
  ret ("token " ++ percent_s access_token).

Definition _get_resource_url (self : GitHub) (resource : string) : string :=
  if PyStr.startswith resource "http://" || PyStr.startswith resource "https://"
  then resource
  else if PyStr.startswith resource "/"
  then PyStr.drop_last (base_url self) ++ resource
  else base_url self ++ resource.

Definition raw_request (self : GitHub) (method resource : string)
  (access_token : option string) (kwargs : Kwargs) : M Response :=
  let headers := _pop_headers kwargs in
  authorization <- _get_authorization_header self access_token ;;
  let headers := set headers "Authorization" authorization in
  let url := _get_resource_url self resource in
  session_call self
    {| call_method := method; call_url := url; call_follow_redirects := true;
       call_headers := Some headers; call_data := None;
       call_kwargs := kw_extra kwargs |}.

(** [request] returns the decoded JSON or the response itself. *)
Inductive ApiResult : Type :=
| Decoded (v : json)
| Raw (response : Response).

(** [response.links.get('next')], when it is there and true. *)
Definition next_link (response : Response) : option (dict string) :=
  match get (links response) "next" with
  | Some link => if PyDict.truthy link then Some link else None
  | None => None
  end.

(** [link['url']] *)
Definition link_url (link : dict string) : result string :=
  match get link "url" with
  | Some url => Return url
  | None => Raise (KeyError "url")
  end.

(** The [while] loop of [request], for at most [fuel] iterations: [response]
    is the last response received and [result] the accumulator.
    [access_token] is the keyword argument of that name, which [request]
    forwards to every [raw_request] with the other keyword arguments. *)
Fixpoint paginate (fuel : nat) (self : GitHub) (method : string) (all_pages : bool)
  (access_token : option string) (kwargs : Kwargs)
  (response : Response) (result : json) : M json :=
  match (if all_pages then next_link response else None) with
  | None => ret result
  | Some link =>
      match fuel with
      | O => diverge
      | S fuel' =>
          url <- lift (link_url link) ;;
          response <- raw_request self method url access_token kwargs ;;
          if negb (is_valid_response response) || negb (is_json_response response)
          then raise (GitHubError response)
          else
            body <- lift (response_json response) ;;
            if is_list body then
              result <- lift (iadd result body) ;;
              paginate fuel' self method all_pages access_token kwargs response result
            else if is_items_dict body then
              items <- lift (getitem result "items") ;;
              more <- lift (getitem body "items") ;;
              items <- lift (iadd items more) ;;
              result <- lift (setitem result "items" items) ;;
              paginate fuel' self method all_pages access_token kwargs response result
            else raise (GitHubError response)
      end
  end.

(** [GitHub.request] *)
Definition request (fuel : nat) (self : GitHub) (method resource : string)
  (all_pages : bool) (access_token : option string) (kwargs : Kwargs) : M ApiResult :=
  response <- raw_request self method resource access_token kwargs ;;
  if negb (is_valid_response response) then raise (GitHubError response)
  else if is_json_response response then
    result <- lift (response_json response) ;;
    result <- paginate fuel self method all_pages access_token kwargs response result ;;
    ret (Decoded result)
  else ret (Raw response).

(** ** Vocabulary of the statements *)

(** The token an authorization header is built from in world [w]: the
    explicit [access_token] when there is one, otherwise what the registered
    getter returns at its next invocation (formatted by [%s]); [None] when
    neither exists. *)
Definition resolved_token (self : GitHub) (access_token : option string) (w : World)
  : option string :=
  match access_token with
  | Some t => Some t
  | None =>
      match get_access_token self with
      | Some f => Some (percent_s (f (getter_calls w)))
      | None => None
      end
  end.

(** The [Authorization] header of an outbound call. *)
Definition authorization_of (c : HttpCall) : option string :=
  match call_headers c with
  | Some headers => get headers "Authorization"
  | None => None
  end.

(** The exchanges a computation added to the world. *)
Definition added (w w' : World) (new : list (HttpCall * Response)) : Prop :=
  exchanges w' = (exchanges w ++ new)%list.

(** The session answers every call to [url] with [page], whatever came
    before and whatever the headers. *)
Definition answers (self : GitHub) (url : string) (page : Response) : Prop :=
  forall history c, call_url c = url -> session self history c = page.

(** The elements of a page whose body is a JSON array. *)
Definition page_items (page : Response) : list json :=
  match json_body page with
  | Some (JArr l) => l
  | _ => []
  end.

(** A valid JSON response whose body is an array. *)
Definition array_page (page : Response) : Prop :=
  is_valid_response page = true /\ is_json_response page = true /\
  exists l, json_body page = Some (JArr l).

(** Pages served in a chain: each resource is answered with its page, every
    page but the last links to the next resource through its [next]
    relation, and the last page has no [next] link. *)
Fixpoint chained (self : GitHub) (pages : list (string * Response)) : Prop :=
  match pages with
  | [] => True
  | (resource, page) :: rest =>
      answers self (_get_resource_url self resource) page /\
      match rest with
      | [] => next_link page = None
      | (resource', _) :: _ =>
          exists link, next_link page = Some link /\ get link "url" = Some resource'
      end /\
      chained self rest
  end.

(** An argument of [authorize] that makes it into the query: supplied and
    not empty. *)
Definition supplied {A : Type} {PV : PyValue A} (name : string) (value : option A)
  : dict string :=
  match value with
  | Some v => if py_bool v then [(name, py_str v)] else []
  | None => []
  end.


(** The call [raw_request] makes once the token has been resolved to [t]. *)
Definition api_call (self : GitHub) (method resource : string) (kwargs : Kwargs)
  (t : string) : HttpCall :=
  {| call_method := method;
     call_url := _get_resource_url self resource;
     call_follow_redirects := true;
     call_headers := Some (set (_pop_headers kwargs) "Authorization" ("token " ++ t));
     call_data := None;
     call_kwargs := kw_extra kwargs |}.

(** The world once the token has been resolved: the getter has been invoked
    unless an explicit token was given. *)
Definition token_resolved (w : World) (access_token : option string) : World :=
  match access_token with
  | Some _ => w
  | None =>
      {| getter_calls := S (getter_calls w);
         exchanges := exchanges w;
         route_calls := route_calls w |}
  end.

(** The [POST] of [_handle_response]. *)
Definition token_call (self : GitHub) (args : dict string) : HttpCall :=
  {| call_method := "POST"; call_url := auth_url self ++ "access_token";
     call_follow_redirects := false; call_headers := None;
     call_data := Some [("code", get args "code");
                        ("client_id", Some (client_id self));
                        ("client_secret", Some (client_secret self))];
     call_kwargs := [] |}.

(** The world once [c] has been answered with [r]. *)
Definition exchanged (w : World) (c : HttpCall) (r : Response) : World :=
  {| getter_calls := getter_calls w;
     exchanges := exchanges w ++ [(c, r)];
     route_calls := route_calls w |}.

(** The world once the route has been entered with [data]. *)
Definition routed (w : World) (data : option string) : World :=
  {| getter_calls := getter_calls w;
     exchanges := exchanges w;
     route_calls := route_calls w ++ [data] |}.

(** The first [access_token] value of a parsed body. *)
Definition token_of (data : dict (list string)) : option string :=
  match get data "access_token" with
  | Some (t :: _) => Some t
  | _ => None
  end.

(** Every name of a parsed body has at least one value, and the values are
    ASCII. *)
Definition well_grouped (parsed : dict (list string)) : Prop :=
  forall k vs, get parsed k = Some vs ->
    vs <> [] /\ Forall (fun v => PyStr.all_ascii v = true) vs.

(** One pass through the body of the [while] loop after the next page has
    been fetched: the new accumulator, or the exception raised. *)
Definition merged (acc : json) (response : Response) : result json :=
  if negb (is_valid_response response) || negb (is_json_response response)
  then Raise (GitHubError response)
  else
    match response_json response with
    | Return body =>
        if is_list body then iadd acc body
        else if is_items_dict body then
          match getitem acc "items" with
          | Return items =>
              match getitem body "items" with
              | Return more =>
                  match iadd items more with
                  | Return items' => setitem acc "items" items'
                  | Raise e => Raise e
                  | Diverge => Diverge
                  end
              | Raise e => Raise e
              | Diverge => Diverge
              end
          | Raise e => Raise e
          | Diverge => Diverge
          end
        else Raise (GitHubError response)
    | Raise e => Raise e
    | Diverge => Diverge
    end.

(** [isinstance(v, dict)] *)
Definition is_dict (v : json) : bool :=
  match v with JObj _ => true | _ => false end.

(** A token can be resolved: explicitly given, or a getter is registered. *)
Definition has_token_source (self : GitHub) (access_token : option string) : Prop :=
  access_token <> None \/ get_access_token self <> None.

(** The exchanges of the pagination loop, as a relation: from world [w]
    with accumulator [acc], the loop makes the exchanges [new] and ends with
    [res] in world [w'].  It ends without a further exchange ([fetch_none]:
    no [next] link, no iteration left, or an exception before anything is
    sent), or it fetches a page whose merge raises ([fetch_raise]), or it
    fetches a page, merges it and goes on ([fetch_next]). *)
Inductive fetches (self : GitHub) (method : string) (access_token : option string)
  (kwargs : Kwargs) : World -> json -> list (HttpCall * Response) -> result json ->
  World -> Prop :=
| fetch_none w acc res : fetches self method access_token kwargs w acc [] res w
| fetch_raise w acc url t c r e :
    resolved_token self access_token w = Some t ->
    c = api_call self method url kwargs t ->
    r = session self (exchanges w) c ->
    merged acc r = Raise e ->
    fetches self method access_token kwargs w acc [(c, r)] (Raise e)
      (exchanged (token_resolved w access_token) c r)
| fetch_next w acc url t c r acc' new res w' :
    resolved_token self access_token w = Some t ->
    c = api_call self method url kwargs t ->
    r = session self (exchanges w) c ->
    merged acc r = Return acc' ->
    fetches self method access_token kwargs
      (exchanged (token_resolved w access_token) c r) acc' new res w' ->
    fetches self method access_token kwargs w acc ((c, r) :: new) res w'.

(** The outcome of [request] for an outcome of the loop. *)
Definition decoded (res : result json) : result ApiResult :=
  match res with
  | Return v => Return (Decoded v)
  | Raise e => Raise e
  | Diverge => Diverge
  end.

(** ** The specification as worded, where the code differs *)

Module Spec.

(** "already absolute (starts with a scheme)": a letter, then letters,
    digits, [+], [-] or [.], then [://]. *)
Definition scheme_char (c : ascii) : bool :=
  let n := nat_of_ascii c in
  (Nat.leb 65 n && Nat.leb n 90) || (Nat.leb 97 n && Nat.leb n 122) ||
  (Nat.leb 48 n && Nat.leb n 57) ||
  Ascii.eqb c "+" || Ascii.eqb c "-" || Ascii.eqb c ".".

Definition letter (c : ascii) : bool :=
  let n := nat_of_ascii c in
  (Nat.leb 65 n && Nat.leb n 90) || (Nat.leb 97 n && Nat.leb n 122).

Fixpoint scheme_rest (s : string) : bool :=
  match s with
  | EmptyString => false
  | String c rest =>
      if Ascii.eqb c ":" then PyStr.startswith rest "//"
      else scheme_char c && scheme_rest rest
  end.

Definition is_absolute (resource : string) : bool :=
  match resource with
  | EmptyString => false
  | String c rest => letter c && scheme_rest rest
  end.

(** "used verbatim if absolute; joined with exactly one slash if it starts
    with [/]; otherwise concatenated onto the base". *)
Definition resource_url (self : GitHub) (resource : string) : string :=
  if is_absolute resource then resource
  else if PyStr.startswith resource "/"
  then PyStr.drop_last (base_url self) ++ resource
  else base_url self ++ resource.

(** "exactly client_id plus each of the fields scope, redirect_uri, state
    that was supplied non-null". *)
Definition non_null (name : string) (value : option string) : dict string :=
  match value with
  | Some v => [(name, v)]
  | None => []
  end.

Definition authorize_url {A : Type} {PV : PyValue A} (self : GitHub)
  (scope : option A) (redirect_uri state : option string) : string :=
  auth_url self ++ "authorize?" ++
  Urllib.urlencode ((("client_id", client_id self) ::
                     non_null "scope" (option_map py_str scope)) ++
                    non_null "redirect_uri" redirect_uri ++ non_null "state" state)%list.

End Spec.

(** ** A mock upstream *)

Module Example.

Definition ints (l : list Z) : json := JArr (map JInt l).

(** A 200 JSON response with [body], linking to [next] when given. *)
Definition page (body : json) (next : option string) : Response :=
  {| status_code := 200;
     content_type := Some "application/json; charset=utf-8";
     links := match next with
              | Some url => [("next", [("url", url); ("rel", "next")])]
              | None => []
              end;
     json_body := Some body;
     content := "" |}.

Definition not_found : Response :=
  {| status_code := 404; content_type := Some "application/json";
     links := []; json_body := Some (JObj [("message", JStr "Not Found")]);
     content := "" |}.

(** A response of the token endpoint with the given body. *)
Definition token_response (body : string) : Response :=
  {| status_code := 200;
     content_type := Some "application/x-www-form-urlencoded";
     links := []; json_body := None; content := body |}.

(** A session that serves [pages] by URL and answers 404 elsewhere. *)
Fixpoint serve (pages : list (string * Response))
  (history : list (HttpCall * Response)) (c : HttpCall) : Response :=
  match pages with
  | [] => not_found
  | (url, r) :: rest =>
      if String.eqb (call_url c) url then r else serve rest history c
  end.

Definition client (upstream : list (string * Response))
  (getter : option (nat -> option string)) : GitHub :=
  {| client_id := "123"; client_secret := "SEKRET";
     base_url := BASE_URL; auth_url := BASE_AUTH_URL;
     session := serve upstream; get_access_token := getter |}.

(** Three chained pages [1,2], [3,4], [5]. *)
Definition page1 : Response := page (ints [1; 2]%Z) (Some "https://api.github.com/items?page=2").
Definition page2 : Response := page (ints [3; 4]%Z) (Some "https://api.github.com/items?page=3").
Definition page3 : Response := page (ints [5]%Z) None.

Definition three_pages : list (string * Response) :=
  [("https://api.github.com/items", page1);
   ("https://api.github.com/items?page=2", page2);
   ("https://api.github.com/items?page=3", page3)].

(** The first page only: its [next] link leads to a 404. *)
Definition github_broken : GitHub :=
  client [("https://api.github.com/items", page1)] (Some (fun _ => Some "TOK123")).

(** An array page followed by a search-style page [{"items": [3]}]. *)
Definition github_mixed : GitHub :=
  client [("https://api.github.com/items", page1);
          ("https://api.github.com/items?page=2",
           page (JObj [("total_count", JInt 3); ("items", ints [3]%Z)]) None)]
         (Some (fun _ => Some "TOK123")).

(** An array page followed by a page [{"message": "gone"}]. *)
Definition github_malformed : GitHub :=
  client [("https://api.github.com/items", page1);
          ("https://api.github.com/items?page=2",
           page (JObj [("message", JStr "gone")]) None)]
         (Some (fun _ => Some "TOK123")).

(** The token getter of a logged-in user. *)
Definition getter (n : nat) : option string := Some "TOK123".

Definition github : GitHub := client three_pages (Some getter).

(** A client whose upstream is the token endpoint answering [body]. *)
Definition github_oauth (body : string) : GitHub :=
  client [("https://github.com/login/oauth/access_token", token_response body)] None.

Definition w0 : World := {| getter_calls := 0; exchanges := []; route_calls := [] |}.

Definition no_kwargs : Kwargs := {| kw_headers := None; kw_extra := [] |}.

(** A route that returns the token it is given. *)
Definition route (data : option string) (args : unit) : M (option string) := ret data.

End Example.

(** ** More of the module *)

(** [str(n)] for an integer. *)
Definition str_int (n : Z) : string := NilZero.string_of_int (Z.to_int n).

(** ['%s' % v] for a decoded JSON value: a string is itself, [None], [True],
    [False] and integers print as Python prints them; a list or a dict
    prints as its [repr], which is left to the parameter [repr]. *)
Definition percent_s_json (repr : json -> string) (v : json) : string :=
  match v with
  | JNull => "None"
  | JBool true => "True"
  | JBool false => "False"
  | JInt n => str_int n
  | JStr s => s
  | JArr _ | JObj _ => repr v
  end.

(** [GitHubError.__str__]: the message is [response.json()['message']], or
    [None] when that raises. *)
Definition GitHubError_str (repr : json -> string) (response : Response) : string :=
  let message :=
    match response_json response with
    | Return body =>
        match getitem body "message" with
        | Return message => message
        | _ => JNull
        end
    | _ => JNull
    end in
  str_int (status_code response) ++ ": " ++ percent_s_json repr message.

(** [GitHub.init_app]: [config] is [app.config]; [client] is the transport
    of the [AsyncClient] the method creates.  The method assigns the
    attributes one after the other, so the instance it leaves is returned
    beside the outcome: when the secret is missing the id has been assigned
    already.  The getter, an attribute of the instance, is kept.  (The
    assignment to [session] also schedules the closing of the previous
    client on the event loop, which is outside the world observed here.) *)
Definition init_app (self : GitHub) (config : dict string)
  (client : list (HttpCall * Response) -> HttpCall -> Response)
  : result unit * GitHub :=
  match get config "GITHUB_CLIENT_ID" with
  | None => (Raise (KeyError "GITHUB_CLIENT_ID"), self)
  | Some id =>
      let self :=
        {| client_id := id; client_secret := client_secret self;
           base_url := base_url self; auth_url := auth_url self;
           session := session self; get_access_token := get_access_token self |} in
      match get config "GITHUB_CLIENT_SECRET" with
      | None => (Raise (KeyError "GITHUB_CLIENT_SECRET"), self)
      | Some secret =>
          (Return tt,
           {| client_id := id;
              client_secret := secret;
              base_url := match get config "GITHUB_BASE_URL" with
                          | Some url => url
                          | None => BASE_URL
                          end;
              auth_url := match get config "GITHUB_AUTH_URL" with
                          | Some url => url
                          | None => BASE_AUTH_URL
                          end;
              session := client;
              get_access_token := get_access_token self |})
      end
  end.

(** [dict(kwargs.pop('headers', {}))]: [dict(None)] is a [TypeError]. *)
Definition dict_of_headers (headers : option (option (dict string)))
  : result (dict string) :=
  match headers with
  | None => Return []
  | Some None => Raise TypeError
  | Some (Some h) => Return h
  end.

(** [d.setdefault(k, v)], for the dict it leaves. *)
Definition setdefault {V} (d : dict V) (k : string) (v : V) : dict V :=
  match get d k with
  | Some _ => d
  | None => set d k v
  end.

(** [GitHub.post]: [dumps] is [quart.json.dumps]; [data] is the payload
    ([None] is [JNull]).  As for [request], [all_pages] and [access_token]
    are the keyword arguments of these names. *)
Definition post (dumps : json -> string) (fuel : nat) (self : GitHub)
  (resource : string) (data : json) (all_pages : bool)
  (access_token : option string) (kwargs : Kwargs) : M ApiResult :=
  headers <- lift (dict_of_headers (kw_headers kwargs)) ;;
  let headers := setdefault headers "Content-Type" "application/json" in
  let data := dumps data in
  request fuel self "POST" resource all_pages access_token
    {| kw_headers := Some (Some headers);
       kw_extra := ("data", data) :: kw_extra kwargs |}.

(** [GitHub.patch] *)
Definition patch (dumps : json -> string) (fuel : nat) (self : GitHub)
  (resource : string) (data : json) (all_pages : bool)
  (access_token : option string) (kwargs : Kwargs) : M ApiResult :=
  headers <- lift (dict_of_headers (kw_headers kwargs)) ;;
  let headers := setdefault headers "Content-Type" "application/json" in
  let data := dumps data in
  request fuel self "PATCH" resource all_pages access_token
    {| kw_headers := Some (Some headers);
       kw_extra := ("data", data) :: kw_extra kwargs |}.

(** [GitHub.put] *)
Definition put (dumps : json -> string) (fuel : nat) (self : GitHub)
  (resource : string) (data : json) (all_pages : bool)
  (access_token : option string) (kwargs : Kwargs) : M ApiResult :=
  headers <- lift (dict_of_headers (kw_headers kwargs)) ;;
  let headers := setdefault headers "Content-Type" "application/json" in
  let data := dumps data in
  request fuel self "PUT" resource all_pages access_token
    {| kw_headers := Some (Some headers);
       kw_extra := ("data", data) :: kw_extra kwargs |}.

(** [GitHub.head] *)
Definition head (fuel : nat) (self : GitHub) (resource : string)
  (all_pages : bool) (access_token : option string) (kwargs : Kwargs) : M ApiResult :=
  request fuel self "HEAD" resource all_pages access_token kwargs.

(** [GitHub.delete] *)
Definition delete (fuel : nat) (self : GitHub) (resource : string)
  (all_pages : bool) (access_token : option string) (kwargs : Kwargs) : M ApiResult :=
  request fuel self "DELETE" resource all_pages access_token kwargs.

(** *** Vocabulary *)

(** A valid JSON response whose body is an object with a list of [items]. *)
Definition items_page (page : Response) : Prop :=
  is_valid_response page = true /\ is_json_response page = true /\
  exists d l, json_body page = Some (JObj d) /\ get d "items" = Some (JArr l).

(** The [items] of such a page. *)
Definition page_item_list (page : Response) : list json :=
  match json_body page with
  | Some (JObj d) =>
      match get d "items" with
      | Some (JArr l) => l
      | _ => []
      end
  | _ => []
  end.

(** The characters a form-encoded query is made of: unreserved characters,
    [%] with its hexadecimal digits, [+], [=] and [&]. *)
Definition query_char (c : ascii) : bool :=
  Urllib.always_safe c || Ascii.eqb c "%" || Ascii.eqb c "+" ||
  Ascii.eqb c "=" || Ascii.eqb c "&".

Fixpoint all_chars (p : ascii -> bool) (s : string) : bool :=
  match s with
  | EmptyString => true
  | String c rest => p c && all_chars p rest
  end.

(** A field [urlencode] and [parse_qsl] agree on: ASCII name, ASCII value
    that is not empty. *)
Definition plain_field (kv : string * string) : Prop :=
  PyStr.all_ascii (fst kv) = true /\ PyStr.all_ascii (snd kv) = true /\
  snd kv <> "".

(** *** More mock upstreams *)

Module Fixture.

(** A plain-text response that carries a [next] link. *)
Definition zen : Response :=
  {| status_code := 200; content_type := Some "text/plain";
     links := [("next", [("url", "https://api.github.com/zen?page=2")])];
     json_body := Some (JArr []); content := "Keep it simple." |}.

Definition github_zen : GitHub :=
  Example.client [("https://api.github.com/zen", zen)] (Some Example.getter).

(** An HTML page with a valid status. *)
Definition html : Response := Example.token_response "<html>rate limited</html>".

(** An array page whose [next] link leads to an HTML page. *)
Definition github_html : GitHub :=
  Example.client [("https://api.github.com/items", Example.page1);
                  ("https://api.github.com/items?page=2", html)]
                 (Some Example.getter).

(** A response announced as JSON whose body does not decode. *)
Definition garbled : Response :=
  {| status_code := 200; content_type := Some "application/json";
     links := []; json_body := None; content := "{oops" |}.

Definition github_garbled : GitHub :=
  Example.client [("https://api.github.com/items", garbled)] (Some Example.getter).

(** A page that links to itself. *)
Definition loop_page : Response :=
  Example.page (Example.ints [1]%Z) (Some "https://api.github.com/loop").

Definition github_loop : GitHub :=
  Example.client [("https://api.github.com/loop", loop_page)] (Some Example.getter).

(** Two search-style pages. *)
Definition search1 : Response :=
  Example.page (JObj [("total_count", JInt 3); ("items", Example.ints [1; 2]%Z)])
               (Some "https://api.github.com/search?page=2").

Definition search2 : Response :=
  Example.page (JObj [("total_count", JInt 3); ("incomplete_results", JBool false);
                      ("items", Example.ints [3]%Z)])
               None.

Definition github_search : GitHub :=
  Example.client [("https://api.github.com/search", search1);
                  ("https://api.github.com/search?page=2", search2)]
                 (Some Example.getter).

End Fixture.

(** The characters [quote_plus] produces: unreserved characters, [%] with
    its hexadecimal digits, and [+]. *)
Definition encoded_char (c : ascii) : bool :=
  Urllib.always_safe c || Ascii.eqb c "%" || Ascii.eqb c "+".

(** [repr] of a [str] made of letters, digits and other printable ASCII
    characters apart from quotes and the backslash: the string between
    single quotes.  For the examples. *)
Definition repr_plain (s : string) : string := "'" ++ s ++ "'".

(** The query of a URL built as [base + "authorize?" + query]. *)
Definition query_of (self : GitHub) (url query : string) : Prop :=
  url = auth_url self ++ "authorize?" ++ query.

(** The values of the pairs named [k], in order. *)
Definition values_of (k : string) (pairs : list (string * string)) : list string :=
  map snd (filter (fun p => String.eqb (fst p) k) pairs).

(** A string starts with one of the two prefixes [_get_resource_url] takes
    for absolute. *)
Definition is_http (s : string) : bool :=
  PyStr.startswith s "http://" || PyStr.startswith s "https://".

(** A client whose base URL ends with a character of two bytes: the path
    [caf] followed by U+00E9, that is the bytes 195 and 169. *)
Definition github_cafe : GitHub :=
  {| client_id := "123"; client_secret := "SEKRET";
     base_url := "https://example.org/caf" ++
                 String "195"%char (String "169"%char "");
     auth_url := BASE_AUTH_URL;
     session := Example.serve []; get_access_token := Some Example.getter |}.

(** A client configured with a base URL that lacks the final slash. *)
Definition github_no_slash : GitHub :=
  {| client_id := "123"; client_secret := "SEKRET";
     base_url := "https://api.github.com"; auth_url := BASE_AUTH_URL;
     session := Example.serve []; get_access_token := Some Example.getter |}.

(** What [post], [patch] and [put] send: the verb, the encoded payload
    before the caller's other keyword arguments, the caller's
    [Content-Type] or else [application/json], and the caller's other
    headers apart from [Authorization]. *)
Definition json_call (verb body : string) (caller : dict string)
  (extra : dict string) (c : HttpCall) : Prop :=
  call_method c = verb /\
  call_kwargs c = ("data", body) :: extra /\
  exists headers,
    call_headers c = Some headers /\
    get headers "Content-Type" =
      Some (match get caller "Content-Type" with
            | Some v => v
            | None => "application/json"
            end) /\
    forall name, name <> "Authorization" -> name <> "Content-Type" ->
      get headers name = get caller name.

(** A client whose upstream answers 404 with GitHub's error body. *)
Definition github_404 : GitHub := Example.client [] (Some Example.getter).

(** [repr] of a list or dict, for the examples: never called on them. *)
Definition no_repr (v : json) : string := "".

(** [quart.json.dumps], for the examples: the payloads used are strings
    already. *)
Definition dumps_example (v : json) : string :=
  match v with
  | JNull => "null"
  | _ => "{}"
  end.

(** Every exchange a run of [m] from world [w] adds satisfies [P], however
    the run ends. *)
Definition every_exchange (P : HttpCall -> Prop) (m : M ApiResult) (w : World) : Prop :=
  forall res w', m w = (res, w') ->
  exists new,
    exchanges w' = (exchanges w ++ new)%list /\
    forall c r, In (c, r) new -> P c.

(** What [head] and [delete] send: the verb, no payload, the caller's
    keyword arguments and the caller's headers apart from [Authorization]. *)
Definition plain_call (verb : string) (kwargs : Kwargs) (c : HttpCall) : Prop :=
  call_method c = verb /\
  call_data c = None /\
  call_kwargs c = kw_extra kwargs /\
  exists headers,
    call_headers c = Some headers /\
    forall name, name <> "Authorization" ->
      get headers name = get (_pop_headers kwargs) name.

(** Keyword arguments with [headers=None]. *)
Definition headers_none : Kwargs := {| kw_headers := Some None; kw_extra := [] |}.

(** Keyword arguments with an [Accept] header and a timeout. *)
Definition accept_kwargs : Kwargs :=
  {| kw_headers := Some (Some [("Accept", "application/vnd.github+json")]);
     kw_extra := [("timeout", "5")] |}.

(** * Properties *)

(** ** Strings and dicts *)

Lemma startswith_app (p t : string) : PyStr.startswith (p ++ t) p = true.
Proof.
  unfold PyStr.startswith. induction p as [|c p IH]; simpl.
  - destruct t; reflexivity.
  - destruct (ascii_dec c c) as [_|n]; [exact IH | congruence].
Qed.

Lemma all_continuation_app (a b : string) :
  PyStr.all_continuation (a ++ b) =
  PyStr.all_continuation a && PyStr.all_continuation b.
Proof.
  induction a as [|c a IH]; simpl; [reflexivity|].
  now rewrite IH, andb_assoc.
Qed.

(** Dropping the last character of [b ++ ch] leaves [b]. *)
Lemma drop_last_char (b ch : string) :
  PyStr.one_char ch = true -> PyStr.drop_last (b ++ ch) = b.
Proof.
  destruct ch as [|c rest]; [discriminate|]. simpl. intros Hch.
  apply andb_true_iff in Hch. destruct Hch as [Hc Hrest].
  apply negb_true_iff in Hc.
  induction b as [|d b IH]; simpl.
  - now rewrite Hrest.
  - rewrite all_continuation_app. simpl. rewrite Hc, andb_false_r.
    now rewrite IH.
Qed.

Lemma drop_last_slash (b : string) : PyStr.drop_last (b ++ "/") = b.
Proof. now apply drop_last_char. Qed.

Lemma string_app_assoc (a b c : string) : (a ++ b) ++ c = a ++ b ++ c.
Proof. induction a as [|x a IH]; simpl; [reflexivity | now rewrite IH]. Qed.

Lemma get_set_same {V} (d : dict V) k v : get (set d k v) k = Some v.
Proof.
  induction d as [|[k' v'] d IH]; simpl.
  - now rewrite String.eqb_refl.
  - destruct (String.eqb k' k) eqn:E; simpl; rewrite E; auto.
Qed.

Lemma get_set_other {V} (d : dict V) k k' v :
  k <> k' -> get (set d k v) k' = get d k'.
Proof.
  intros Hne. induction d as [|[k0 v0] d IH]; simpl.
  - destruct (String.eqb_spec k k'); [contradiction | reflexivity].
  - destruct (String.eqb_spec k0 k) as [->|]; simpl.
    + destruct (String.eqb_spec k k'); [contradiction | reflexivity].
    + destruct (String.eqb k0 k'); auto.
Qed.

(** ** Resource URLs *)

(** C6, as the code has it: a resource that starts with [http://] or
    [https://] is requested verbatim, whatever the base; a resource that
    starts with [/] is joined onto a base that ends with a slash with just
    that one slash; any other resource is appended to the base, whatever the
    base; and against a base that ends with a slash the two spellings [r]
    and [/r] of a relative resource give the same URL. *)
Theorem get_resource_url_resolution (self : GitHub) (resource : string) :
  (PyStr.startswith resource "http://" || PyStr.startswith resource "https://" = true ->
   _get_resource_url self resource = resource) /\
  (PyStr.startswith resource "http://" || PyStr.startswith resource "https://" = false ->
   PyStr.startswith resource "/" = true ->
   forall b, base_url self = b ++ "/" ->
   _get_resource_url self resource = b ++ resource) /\
  (PyStr.startswith resource "http://" || PyStr.startswith resource "https://" = false ->
   PyStr.startswith resource "/" = false ->
   _get_resource_url self resource = base_url self ++ resource /\
   (forall b, base_url self = b ++ "/" ->
    _get_resource_url self ("/" ++ resource) = base_url self ++ resource)).
Proof.
  unfold _get_resource_url. split; [|split].
  - intros ->. reflexivity.
  - intros -> -> b ->. now rewrite drop_last_slash.
  - intros Hh Hs. rewrite Hh, Hs. split; [reflexivity|].
    intros b ->.
    cbn [append PyStr.startswith String.prefix].
    destruct (ascii_dec "h" "/") as [E|_]; [discriminate E|].
    destruct (ascii_dec "/" "/") as [_|N]; [|congruence].
    cbn [orb].
    destruct resource; cbn [String.prefix];
      rewrite drop_last_slash, string_app_assoc; reflexivity.
Qed.

Lemma get_resource_url_resolution_witness :
  _get_resource_url Example.github "/repos/x/y" = "https://api.github.com/repos/x/y" /\
  _get_resource_url Example.github "repos/x/y" = "https://api.github.com/repos/x/y" /\
  _get_resource_url Example.github "https://example.org/a" = "https://example.org/a".
Proof.
  split; [|split].
  - exact (proj1 (proj2 (get_resource_url_resolution Example.github "/repos/x/y"))
             eq_refl eq_refl "https://api.github.com" eq_refl).
  - exact (proj1 (proj2 (proj2 (get_resource_url_resolution
                                  Example.github "repos/x/y"))
                    eq_refl eq_refl)).
  - exact (proj1 (get_resource_url_resolution
                    Example.github "https://example.org/a") eq_refl).
Defined.

(** C6 as worded fails: a resource with another scheme is not requested
    verbatim but appended to the base. *)
Lemma resource_url_other_scheme :
  Spec.is_absolute "ftp://example.org/x" = true /\
  _get_resource_url Example.github "ftp://example.org/x" =
    "https://api.github.com/ftp://example.org/x" /\
  _get_resource_url Example.github "ftp://example.org/x" <>
    Spec.resource_url Example.github "ftp://example.org/x".
Proof.
  split; [reflexivity | split; [reflexivity | discriminate]].
Qed.

(** ** The authorization redirect *)

(** The redirect of [authorize], for a scope of any kind. *)
Lemma authorize_supplied {A : Type} {PV : PyValue A} (self : GitHub)
  (scope : option A) (redirect_uri state : option string) :
  location (authorize self scope redirect_uri state) =
  auth_url self ++ "authorize?" ++
  Urllib.urlencode ((("client_id", client_id self) :: supplied "scope" scope) ++
                    supplied "redirect_uri" redirect_uri ++ supplied "state" state)%list.
Proof.
  unfold authorize, authorize_params, supplied. simpl.
  destruct scope as [v|]; [destruct (py_bool v)|];
    destruct redirect_uri as [[|b r]|];
    destruct state as [[|c t]|]; reflexivity.
Qed.

(** C5, as the code has it: the redirect goes to [auth_url + "authorize?"]
    followed by the form encoding of [client_id] and of exactly those of
    [scope], [redirect_uri], [state] that were supplied and are not empty,
    in this order.  This holds for a scope given as a string and for a scope
    given as a list of strings: an empty list is left out like an empty
    string, and any other list is sent as one field that holds the text of
    the list. *)
Theorem authorize_query (self : GitHub) (redirect_uri state : option string) :
  (forall scope : option string,
     location (authorize self scope redirect_uri state) =
     auth_url self ++ "authorize?" ++
     Urllib.urlencode ((("client_id", client_id self) :: supplied "scope" scope) ++
                       supplied "redirect_uri" redirect_uri ++
                       supplied "state" state)%list) /\
  (forall (repr : string -> string) (scope : option (list string)),
     location (authorize (PV := list_value repr) self scope redirect_uri state) =
     auth_url self ++ "authorize?" ++
     Urllib.urlencode ((("client_id", client_id self) ::
                        supplied (PV := list_value repr) "scope" scope) ++
                       supplied "redirect_uri" redirect_uri ++
                       supplied "state" state)%list) /\
  (forall (repr : string -> string) (x : string) (l : list string),
     supplied (PV := list_value repr) "scope" (Some []) = [] /\
     supplied (PV := list_value repr) "scope" (Some (x :: l)) =
       [("scope", "[" ++ PyStr.join ", " (map repr (x :: l)) ++ "]")]).
Proof.
  split; [|split].
  - intros scope. apply authorize_supplied.
  - intros repr scope. apply authorize_supplied.
  - intros repr x l. split; reflexivity.
Qed.

(** A scope given as the list [['user', 'repo']]. *)
Lemma authorize_list_scope :
  location (authorize (PV := list_value repr_plain) Example.github
              (Some ["user"; "repo"]) None None) =
  "https://github.com/login/oauth/authorize?client_id=123&scope=%5B%27user%27%2C+%27repo%27%5D".
Proof. reflexivity. Qed.

(** C5 as worded fails: a [state] supplied as the empty string is non-null,
    yet it is left out of the query. *)
Lemma authorize_drops_empty_state :
  location (authorize Example.github None None (Some "")) =
    "https://github.com/login/oauth/authorize?client_id=123" /\
  Spec.authorize_url Example.github None None (Some "") =
    "https://github.com/login/oauth/authorize?client_id=123&state=" /\
  location (authorize Example.github None None (Some "")) <>
    Spec.authorize_url Example.github None None (Some "").
Proof.
  split; [reflexivity | split; [reflexivity | discriminate]].
Qed.

(** ** Authorization of outbound calls *)

(** What [raw_request] does, in one step: without a token source it raises
    before anything is sent; otherwise it sends exactly the call [api_call]
    describes and returns the answer. *)
Lemma raw_request_run (self : GitHub) (method resource : string)
  (access_token : option string) (kwargs : Kwargs) (w : World) :
  raw_request self method resource access_token kwargs w =
  match resolved_token self access_token w with
  | None => (Raise NotImplementedError, w)
  | Some t =>
      (Return (session self (exchanges w) (api_call self method resource kwargs t)),
       exchanged (token_resolved w access_token)
                 (api_call self method resource kwargs t)
                 (session self (exchanges w) (api_call self method resource kwargs t)))
  end.
Proof.
  unfold raw_request, _get_authorization_header, call_get_access_token,
    resolved_token, session_call, bind, ret.
  destruct access_token as [t|]; [reflexivity|].
  destruct (get_access_token self) as [f|]; reflexivity.
Qed.

(** C7: whenever a token can be resolved (the explicit [access_token], else
    the getter's answer), [raw_request] sends one call whose [Authorization]
    header is ['token ' + t]; the headers of the caller are kept for every
    other name, and an [Authorization] header of the caller is replaced. *)
Theorem raw_request_authorization (self : GitHub) (method resource : string)
  (access_token : option string) (kwargs : Kwargs) (w : World) (t : string) :
  resolved_token self access_token w = Some t ->
  exists c r w',
    raw_request self method resource access_token kwargs w = (Return r, w') /\
    exchanges w' = (exchanges w ++ [(c, r)])%list /\
    authorization_of c = Some ("token " ++ t) /\
    forall headers, call_headers c = Some headers ->
      forall name, name <> "Authorization" ->
        get headers name = get (_pop_headers kwargs) name.
Proof.
  intros Ht. rewrite raw_request_run, Ht.
  eexists _, _, _. split; [reflexivity|]. split.
  - destruct access_token; reflexivity.
  - split.
    + unfold authorization_of, api_call. simpl. apply get_set_same.
    + intros headers Hh name Hne. simpl in Hh. injection Hh as <-.
      apply get_set_other. congruence.
Qed.

Lemma raw_request_authorization_witness :
  exists c r w',
    raw_request Example.github "GET" "/user" None
      {| kw_headers := Some (Some [("Authorization", "mine"); ("Accept", "*/*")]);
         kw_extra := [] |} Example.w0 = (Return r, w') /\
    exchanges w' = (exchanges Example.w0 ++ [(c, r)])%list /\
    authorization_of c = Some ("token " ++ "TOK123") /\
    forall headers, call_headers c = Some headers ->
      forall name, name <> "Authorization" ->
        get headers name =
        get (_pop_headers {| kw_headers := Some (Some [("Authorization", "mine"); ("Accept", "*/*")]);
                             kw_extra := [] |}) name.
Proof.
  exact (raw_request_authorization Example.github "GET" "/user" None
           {| kw_headers := Some (Some [("Authorization", "mine"); ("Accept", "*/*")]);
              kw_extra := [] |} Example.w0 "TOK123" eq_refl).
Defined.

(** C8: with no getter registered and no explicit token, resolving the
    authorization header raises [NotImplementedError]; [raw_request] and
    [request] end with that exception and leave the world as it was: nothing
    is sent and nothing is tried again. *)
Theorem unconfigured_token_source (self : GitHub) (method resource : string)
  (kwargs : Kwargs) (w : World) :
  get_access_token self = None ->
  _get_authorization_header self None w = (Raise NotImplementedError, w) /\
  raw_request self method resource None kwargs w = (Raise NotImplementedError, w) /\
  forall fuel all_pages,
    request fuel self method resource all_pages None kwargs w =
    (Raise NotImplementedError, w).
Proof.
  intros Hnone.
  assert (Hraw : raw_request self method resource None kwargs w =
                 (Raise NotImplementedError, w)).
  { rewrite raw_request_run. unfold resolved_token. now rewrite Hnone. }
  split; [|split].
  - unfold _get_authorization_header, call_get_access_token, bind.
    now rewrite Hnone.
  - exact Hraw.
  - intros fuel all_pages. unfold request, bind. now rewrite Hraw.
Qed.

Lemma unconfigured_token_source_witness :
  _get_authorization_header (Example.github_oauth "") None Example.w0 =
    (Raise NotImplementedError, Example.w0) /\
  raw_request (Example.github_oauth "") "GET" "/user" None Example.no_kwargs Example.w0 =
    (Raise NotImplementedError, Example.w0) /\
  forall fuel all_pages,
    request fuel (Example.github_oauth "") "GET" "/user" all_pages None
      Example.no_kwargs Example.w0 = (Raise NotImplementedError, Example.w0).
Proof.
  exact (unconfigured_token_source (Example.github_oauth "") "GET" "/user"
           Example.no_kwargs Example.w0 eq_refl).
Defined.

(** ** The code exchange *)

Lemma unquote_field_ascii (s b : string) :
  Urllib.unquote_field s = Return b -> PyStr.all_ascii b = true.
Proof.
  unfold Urllib.unquote_field.
  destruct (PyStr.all_ascii _) eqn:E; [|discriminate].
  intros H. injection H as <-. exact E.
Qed.

Lemma parse_fields_ascii (fields : list string) :
  forall pairs, Urllib.parse_fields fields = Return pairs ->
  Forall (fun p => PyStr.all_ascii (snd p) = true) pairs.
Proof.
  induction fields as [|nv rest IH]; simpl; intros pairs H.
  - injection H as <-. constructor.
  - destruct (PyStr.split1 "=" nv) as [[n v]|]; [|auto].
    destruct (PyStr.truthy v); [|auto].
    destruct (Urllib.unquote_field n) as [name| |]; try discriminate.
    destruct (Urllib.unquote_field v) as [value| |] eqn:Ev; try discriminate.
    destruct (Urllib.parse_fields rest) as [r| |]; try discriminate.
    injection H as <-. constructor; [|auto].
    simpl. eapply unquote_field_ascii; eassumption.
Qed.

Lemma get_set {V} (d : dict V) k k' v :
  get (set d k v) k' = if String.eqb k k' then Some v else get d k'.
Proof.
  destruct (String.eqb_spec k k') as [<-|Hne].
  - apply get_set_same.
  - now apply get_set_other.
Qed.

Lemma group_well_grouped (pairs : list (string * string)) :
  forall parsed,
    Forall (fun p => PyStr.all_ascii (snd p) = true) pairs ->
    well_grouped parsed -> well_grouped (Urllib.group pairs parsed).
Proof.
  induction pairs as [|[name value] rest IH]; simpl; intros parsed Hp Hw; [exact Hw|].
  inversion Hp as [|? ? Hv Hrest]; subst. simpl in Hv.
  destruct (get parsed name) as [vs|] eqn:Eg; apply IH; auto;
    intros k ws; rewrite get_set; destruct (String.eqb name k);
    try (apply Hw); intros H; injection H as <-.
  - destruct (Hw _ _ Eg) as [_ Hall]. split.
    + destruct vs; discriminate.
    + apply Forall_app. split; [exact Hall | now constructor].
  - split; [discriminate | now constructor].
Qed.

Lemma parse_qs_well_grouped (body : string) (data : dict (list string)) :
  Urllib.parse_qs body = Return data -> well_grouped data.
Proof.
  unfold Urllib.parse_qs, Urllib.parse_qsl.
  destruct (PyStr.all_ascii body); [|discriminate].
  destruct (Urllib.parse_fields _) as [pairs| |] eqn:E; try discriminate.
  intros H. injection H as <-.
  apply group_well_grouped.
  - eapply parse_fields_ascii; eassumption.
  - intros k vs H. discriminate.
Qed.

(** What [_handle_response] does once the token endpoint has answered. *)
Lemma handle_response_run (self : GitHub) (args : dict string) (w : World) :
  _handle_response self args w =
  (match Urllib.parse_qs (content (session self (exchanges w) (token_call self args))) with
   | Return data => Return (token_of data)
   | Raise e => Raise e
   | Diverge => Diverge
   end,
   exchanged w (token_call self args)
     (session self (exchanges w) (token_call self args))).
Proof.
  unfold _handle_response, bind, session_call, lift, ret.
  fold (token_call self args).
  set (r := session self (exchanges w) (token_call self args)).
  fold (exchanged w (token_call self args) r).
  destruct (Urllib.parse_qs (content r)) as [data| |] eqn:E; try reflexivity.
  unfold token_of.
  destruct (get data "access_token") as [vs|] eqn:Eg; [|reflexivity].
  destruct (parse_qs_well_grouped _ _ E _ _ Eg) as [Hne Hall].
  destruct vs as [|t vs]; [congruence|]. simpl.
  inversion Hall as [|? ? Ht _]; subst.
  unfold decode_ascii. now rewrite Ht.
Qed.

(** The exchange, by the outcome of [parse_qs]: when [parse_qs] decodes the
    body of the token endpoint, the exchange returns the first
    [access_token] value, so [TOK123] for
    [access_token=TOK123&token_type=bearer], and null when no field of that
    name with a non-blank value is there; when [parse_qs] raises (a byte
    above 127 in the body, or an escape that decodes to one), nothing
    catches the exception and the exchange raises it. *)
Theorem handle_response_token (self : GitHub) (args : dict string) (w : World)
  (r : Response) :
  session self (exchanges w) (token_call self args) = r ->
  (content r = "access_token=TOK123&token_type=bearer" ->
   fst (_handle_response self args w) = Return (Some "TOK123")) /\
  (forall data, Urllib.parse_qs (content r) = Return data ->
   fst (_handle_response self args w) = Return (token_of data)) /\
  (forall data, Urllib.parse_qs (content r) = Return data ->
   get data "access_token" = None ->
   fst (_handle_response self args w) = Return None) /\
  (forall e, Urllib.parse_qs (content r) = Raise e ->
   fst (_handle_response self args w) = Raise e).
Proof.
  intros Hr. rewrite handle_response_run, Hr. simpl.
  split; [|split; [|split]].
  - intros ->. reflexivity.
  - intros data ->. reflexivity.
  - intros data -> Hg. unfold token_of. now rewrite Hg.
  - intros e ->. reflexivity.
Qed.

Lemma handle_response_token_witness :
  fst (_handle_response (Example.github_oauth "access_token=TOK123&token_type=bearer")
         [("code", "KODE")] Example.w0) = Return (Some "TOK123") /\
  fst (_handle_response (Example.github_oauth "error=bad_verification_code")
         [("code", "KODE")] Example.w0) = Return None /\
  fst (_handle_response (Example.github_oauth "error_description=caf%C3%A9")
         [("code", "KODE")] Example.w0) = Raise UnicodeEncodeError.
Proof.
  split; [|split].
  - exact (proj1 (handle_response_token
             (Example.github_oauth "access_token=TOK123&token_type=bearer")
             [("code", "KODE")] Example.w0 _ eq_refl) eq_refl).
  - exact (proj1 (proj2 (proj2 (handle_response_token
             (Example.github_oauth "error=bad_verification_code")
             [("code", "KODE")] Example.w0 _ eq_refl)))
             [("error", ["bad_verification_code"])] eq_refl eq_refl).
  - exact (proj2 (proj2 (proj2 (handle_response_token
             (Example.github_oauth "error_description=caf%C3%A9")
             [("code", "KODE")] Example.w0 _ eq_refl)))
             UnicodeEncodeError eq_refl).
Defined.


(** ** The authorization callback *)

(** The decorated route, when the exchange returns: it exchanges the code
    exactly when the request carries a [code] parameter.  Without one,
    nothing is sent and the route is entered once with null.  With one, a
    single [POST] goes to the token endpoint and the route is entered once
    with what the exchange resolves to: the token, or null when the decoded
    body has no [access_token].  In both cases the outcome of the wrapper is
    the outcome of the route. *)
Theorem authorized_handler_flow {Args R : Type} (self : GitHub)
  (f : option string -> Args -> M R) (request_args : dict string) (args : Args)
  (w : World) :
  (mem request_args "code" = false ->
   exists w1,
     authorized_handler self f request_args args w = f None args w1 /\
     route_calls w1 = (route_calls w ++ [None])%list /\
     exchanges w1 = exchanges w) /\
  (mem request_args "code" = true ->
   forall d w0,
     _handle_response self request_args w = (Return d, w0) ->
     exists w1,
       authorized_handler self f request_args args w = f d args w1 /\
       route_calls w1 = (route_calls w ++ [d])%list /\
       exchanges w1 =
         (exchanges w ++
          [(token_call self request_args,
            session self (exchanges w) (token_call self request_args))])%list /\
       (forall data,
          Urllib.parse_qs
            (content (session self (exchanges w) (token_call self request_args))) =
          Return data ->
          get data "access_token" = None -> d = None)).
Proof.
  split.
  - intros Hcode. exists (routed w None).
    unfold authorized_handler, bind. rewrite Hcode. simpl.
    repeat split.
  - intros Hcode d w0 Hd. exists (routed w0 d).
    unfold authorized_handler, bind. rewrite Hcode, Hd.
    rewrite handle_response_run in Hd. injection Hd as Hres <-.
    repeat split.
    intros data Hdata Hg. rewrite Hdata in Hres. injection Hres as <-.
    unfold token_of. now rewrite Hg.
Qed.

Lemma authorized_handler_flow_witness :
  (exists w1,
     authorized_handler (Example.github_oauth "access_token=asdf&token_type=bearer")
       Example.route [("error", "access_denied")] tt Example.w0 =
     Example.route None tt w1 /\
     route_calls w1 = (route_calls Example.w0 ++ [None])%list /\
     exchanges w1 = exchanges Example.w0) /\
  (exists w1,
     authorized_handler (Example.github_oauth "access_token=asdf&token_type=bearer")
       Example.route [("code", "KODE")] tt Example.w0 =
     Example.route (Some "asdf") tt w1 /\
     route_calls w1 = (route_calls Example.w0 ++ [Some "asdf"])%list /\
     exchanges w1 =
       (exchanges Example.w0 ++
        [(token_call (Example.github_oauth "access_token=asdf&token_type=bearer")
            [("code", "KODE")],
          Example.token_response "access_token=asdf&token_type=bearer")])%list) /\
  (exists w1,
     authorized_handler (Example.github_oauth "error=bad_verification_code")
       Example.route [("code", "KODE")] tt Example.w0 =
     Example.route None tt w1 /\
     route_calls w1 = (route_calls Example.w0 ++ [None])%list).
Proof.
  split; [|split].
  - exact (proj1 (authorized_handler_flow
             (Example.github_oauth "access_token=asdf&token_type=bearer")
             Example.route [("error", "access_denied")] tt Example.w0) eq_refl).
  - destruct (proj2 (authorized_handler_flow
                (Example.github_oauth "access_token=asdf&token_type=bearer")
                Example.route [("code", "KODE")] tt Example.w0) eq_refl
                (Some "asdf") _ eq_refl) as (w1 & H1 & H2 & H3 & _).
    exists w1. exact (conj H1 (conj H2 H3)).
  - destruct (proj2 (authorized_handler_flow
                (Example.github_oauth "error=bad_verification_code")
                Example.route [("code", "KODE")] tt Example.w0) eq_refl
                None _ eq_refl) as (w1 & H1 & H2 & _).
    exists w1. exact (conj H1 H2).
Defined.


(** ** The pagination loop *)

(** One iteration of the loop. *)
Lemma paginate_step (fuel : nat) (self : GitHub) (method : string) (all_pages : bool)
  (access_token : option string) (kwargs : Kwargs) (response : Response)
  (acc : json) (w : World) :
  paginate (S fuel) self method all_pages access_token kwargs response acc w =
  match (if all_pages then next_link response else None) with
  | None => (Return acc, w)
  | Some link =>
      match link_url link with
      | Return url =>
          match resolved_token self access_token w with
          | None => (Raise NotImplementedError, w)
          | Some t =>
              match merged acc (session self (exchanges w)
                                  (api_call self method url kwargs t)) with
              | Return acc' =>
                  paginate fuel self method all_pages access_token kwargs
                    (session self (exchanges w) (api_call self method url kwargs t)) acc'
                    (exchanged (token_resolved w access_token)
                       (api_call self method url kwargs t)
                       (session self (exchanges w) (api_call self method url kwargs t)))
              | Raise e =>
                  (Raise e,
                   exchanged (token_resolved w access_token)
                     (api_call self method url kwargs t)
                     (session self (exchanges w) (api_call self method url kwargs t)))
              | Diverge =>
                  (Diverge,
                   exchanged (token_resolved w access_token)
                     (api_call self method url kwargs t)
                     (session self (exchanges w) (api_call self method url kwargs t)))
              end
          end
      | Raise e => (Raise e, w)
      | Diverge => (Diverge, w)
      end
  end.
Proof.
  cbn [paginate].
  destruct (if all_pages then next_link response else None) as [link|]; [|reflexivity].
  unfold bind at 1. unfold lift at 1.
  destruct (link_url link) as [url| |]; try reflexivity.
  unfold bind at 1. rewrite raw_request_run.
  destruct (resolved_token self access_token w) as [t|]; [|reflexivity].
  set (r := session self (exchanges w) (api_call self method url kwargs t)).
  set (w1 := exchanged (token_resolved w access_token) (api_call self method url kwargs t) r).
  unfold merged.
  destruct (negb (is_valid_response r) || negb (is_json_response r)); [reflexivity|].
  unfold bind at 1. unfold lift at 1.
  destruct (response_json r) as [body| |]; try reflexivity.
  destruct (is_list body).
  { unfold bind at 1. unfold lift at 1. destruct (iadd acc body); reflexivity. }
  destruct (is_items_dict body); [|reflexivity].
  unfold bind at 1. unfold lift at 1.
  destruct (getitem acc "items") as [items| |]; try reflexivity.
  unfold bind at 1. unfold lift at 1.
  destruct (getitem body "items") as [more| |]; try reflexivity.
  unfold bind at 1. unfold lift at 1.
  destruct (iadd items more) as [items'| |]; try reflexivity.
  all: unfold bind at 1; unfold lift at 1;
    destruct (setitem acc "items" items'); reflexivity.
Qed.

(** The loop with no iteration left. *)
Lemma paginate_zero (self : GitHub) (method : string) (all_pages : bool)
  (access_token : option string) (kwargs : Kwargs) (response : Response)
  (acc : json) (w : World) :
  paginate 0 self method all_pages access_token kwargs response acc w =
  match (if all_pages then next_link response else None) with
  | None => (Return acc, w)
  | Some _ => (Diverge, w)
  end.
Proof.
  cbn [paginate].
  destruct (if all_pages then next_link response else None); reflexivity.
Qed.

(** [request] up to the loop. *)
Lemma request_run (fuel : nat) (self : GitHub) (method resource : string)
  (all_pages : bool) (access_token : option string) (kwargs : Kwargs) (w : World) :
  request fuel self method resource all_pages access_token kwargs w =
  match resolved_token self access_token w with
  | None => (Raise NotImplementedError, w)
  | Some t =>
      let c := api_call self method resource kwargs t in
      let r := session self (exchanges w) c in
      let w1 := exchanged (token_resolved w access_token) c r in
      if negb (is_valid_response r) then (Raise (GitHubError r), w1)
      else if is_json_response r then
        match response_json r with
        | Return acc =>
            match paginate fuel self method all_pages access_token kwargs r acc w1 with
            | (Return v, w2) => (Return (Decoded v), w2)
            | (Raise e, w2) => (Raise e, w2)
            | (Diverge, w2) => (Diverge, w2)
            end
        | Raise e => (Raise e, w1)
        | Diverge => (Diverge, w1)
        end
      else (Return (Raw r), w1)
  end.
Proof.
  unfold request. unfold bind at 1. rewrite raw_request_run.
  destruct (resolved_token self access_token w) as [t|]; [|reflexivity].
  cbv zeta.
  destruct (negb (is_valid_response _)); [reflexivity|].
  destruct (is_json_response _); [|reflexivity].
  unfold bind at 1. unfold lift at 1.
  destruct (response_json _) as [acc| |]; reflexivity.
Qed.

(** *** Merging one page *)

Lemma merged_invalid (acc : json) (r : Response) :
  is_valid_response r = false -> merged acc r = Raise (GitHubError r).
Proof. intros H. unfold merged. now rewrite H. Qed.

Lemma merged_not_diverge (acc : json) (r : Response) : merged acc r <> Diverge.
Proof.
  unfold merged.
  destruct (negb _ || negb _); [discriminate|].
  unfold response_json. destruct (json_body r) as [body|]; [|discriminate].
  destruct body as [| | | |l|d]; simpl; try discriminate.
  - destruct acc as [| | | |l'|d']; simpl; discriminate.
  - destruct (mem d "items") eqn:Em; [|discriminate].
    destruct acc as [| | | |l'|d']; simpl; try discriminate.
    destruct (get d' "items") as [items|]; [|discriminate].
    unfold mem in Em. destruct (get d "items") as [more|]; [|discriminate].
    destruct (iadd items more) eqn:Ei; try discriminate.
    destruct items as [|b|n|s|l0|d0]; destruct more as [|b'|n'|s'|l1|d1];
      simpl in Ei; discriminate.
Qed.

Lemma merged_return_valid (acc acc' : json) (r : Response) :
  merged acc r = Return acc' ->
  is_valid_response r = true /\ is_json_response r = true.
Proof.
  unfold merged.
  destruct (is_valid_response r); destruct (is_json_response r); simpl;
    try discriminate. auto.
Qed.

(** A successful merge keeps the shape of the accumulator. *)
Lemma merged_shape (acc acc' : json) (r : Response) :
  merged acc r = Return acc' ->
  is_list acc' = is_list acc /\ is_dict acc' = is_dict acc /\
  is_items_dict acc' = is_items_dict acc.
Proof.
  unfold merged.
  destruct (negb _ || negb _); [discriminate|].
  unfold response_json. destruct (json_body r) as [body|]; [|discriminate].
  destruct body as [| | | |l|d]; simpl; try discriminate.
  - destruct acc as [| | | |l'|d']; simpl; try discriminate.
    intros H. injection H as <-. auto.
  - destruct (mem d "items"); [|discriminate].
    destruct acc as [| | | |l'|d']; simpl; try discriminate.
    destruct (get d' "items") as [items|] eqn:Eg; [|discriminate].
    destruct (get d "items") as [more|]; [|discriminate].
    destruct (iadd items more) as [items'| |]; try discriminate.
    intros H. injection H as <-. simpl. repeat split.
    unfold mem. now rewrite get_set_same, Eg.
Qed.

(** The outcome of merging a valid JSON page, by the shapes of the page and
    of the accumulator. *)
Lemma merged_by_shape (acc body : json) (r : Response) :
  is_valid_response r = true -> is_json_response r = true ->
  json_body r = Some body ->
  (is_list body = false -> is_items_dict body = false ->
   merged acc r = Raise (GitHubError r)) /\
  (is_list body = true -> is_list acc = false -> merged acc r = Raise TypeError) /\
  (is_items_dict body = true -> is_dict acc = false ->
   merged acc r = Raise TypeError) /\
  (is_items_dict body = true -> is_dict acc = true -> is_items_dict acc = false ->
   merged acc r = Raise (KeyError "items")).
Proof.
  intros Hv Hj Hb. unfold merged, response_json. rewrite Hv, Hj, Hb. simpl.
  repeat split.
  - intros -> ->. reflexivity.
  - intros Hl Hacc. destruct body as [| | | |l|d]; try discriminate. simpl.
    destruct acc as [| | | |l'|d']; try discriminate; reflexivity.
  - intros Hi Hacc. destruct body as [| | | |l|d]; try discriminate.
    simpl in *. rewrite Hi.
    destruct acc as [| | | |l'|d']; try discriminate; reflexivity.
  - intros Hi Hd Hacc. destruct body as [| | | |l|d]; try discriminate.
    simpl in *. rewrite Hi.
    destruct acc as [| | | |l'|d']; try discriminate. simpl.
    unfold is_items_dict, mem in Hacc.
    destruct (get d' "items"); [discriminate Hacc | reflexivity].
Qed.

(** *** The exchanges of a run *)

Lemma exchanges_exchanged (w : World) (access_token : option string)
  (c : HttpCall) (r : Response) :
  exchanges (exchanged (token_resolved w access_token) c r) =
  (exchanges w ++ [(c, r)])%list.
Proof. destruct access_token; reflexivity. Qed.

(** Every run of the loop is described by [fetches]. *)
Lemma paginate_fetches (fuel : nat) (self : GitHub) (method : string)
  (all_pages : bool) (access_token : option string) (kwargs : Kwargs) :
  forall response acc w res w',
    paginate fuel self method all_pages access_token kwargs response acc w = (res, w') ->
    exists new, fetches self method access_token kwargs w acc new res w'.
Proof.
  induction fuel as [|fuel IH]; intros response acc w res w' H.
  - rewrite paginate_zero in H.
    destruct (if all_pages then next_link response else None);
      injection H as <- <-; exists []; constructor.
  - rewrite paginate_step in H.
    destruct (if all_pages then next_link response else None) as [link|];
      [|injection H as <- <-; exists []; constructor].
    destruct (link_url link) as [url| |];
      try (injection H as <- <-; exists []; constructor).
    destruct (resolved_token self access_token w) as [t|] eqn:Et;
      [|injection H as <- <-; exists []; constructor].
    destruct (merged acc _) as [acc'|e|] eqn:Em.
    + apply IH in H. destruct H as [new Hnew].
      eexists. eapply fetch_next; eauto.
    + injection H as <- <-. eexists. eapply fetch_raise; eauto.
    + exfalso. eapply merged_not_diverge; eauto.
Qed.

(** The world a run ends in: the exchanges made are appended in order, and
    the getter has been invoked once per exchange unless an explicit token
    was given. *)
Lemma fetches_world (self : GitHub) (method : string) (access_token : option string)
  (kwargs : Kwargs) (w : World) (acc : json) (new : list (HttpCall * Response))
  (res : result json) (w' : World) :
  fetches self method access_token kwargs w acc new res w' ->
  exchanges w' = (exchanges w ++ new)%list /\
  getter_calls w' =
    getter_calls w + (match access_token with Some _ => 0 | None => length new end) /\
  route_calls w' = route_calls w.
Proof.
  induction 1 as [w acc res | w acc url t c r e Ht Hc Hr Hm
                  | w acc url t c r acc' new res w' Ht Hc Hr Hm Hrun IH].
  - rewrite app_nil_r. destruct access_token; simpl; auto.
  - rewrite exchanges_exchanged. destruct access_token; simpl; auto.
    repeat split. lia.
  - destruct IH as (He & Hg & Hc').
    rewrite exchanges_exchanged, <- app_assoc in He.
    split; [exact He|]. destruct access_token; simpl in *; split; auto; lia.
Qed.

(** Every run of [request]: no token source; or a first exchange that is
    invalid, or not JSON, or does not decode; or a first page followed by a
    run of the loop. *)
Lemma request_fetches (fuel : nat) (self : GitHub) (method resource : string)
  (all_pages : bool) (access_token : option string) (kwargs : Kwargs)
  (w : World) (res : result ApiResult) (w' : World) :
  request fuel self method resource all_pages access_token kwargs w = (res, w') ->
  (resolved_token self access_token w = None /\
   res = Raise NotImplementedError /\ w' = w) \/
  exists t c r,
    resolved_token self access_token w = Some t /\
    c = api_call self method resource kwargs t /\
    r = session self (exchanges w) c /\
    ((is_valid_response r = false /\ res = Raise (GitHubError r) /\
      w' = exchanged (token_resolved w access_token) c r) \/
     (is_valid_response r = true /\ is_json_response r = false /\
      res = Return (Raw r) /\ w' = exchanged (token_resolved w access_token) c r) \/
     (is_valid_response r = true /\ is_json_response r = true /\
      json_body r = None /\ res = Raise JSONDecodeError /\
      w' = exchanged (token_resolved w access_token) c r) \/
     (is_valid_response r = true /\ is_json_response r = true /\
      exists acc new res0,
        json_body r = Some acc /\
        fetches self method access_token kwargs
          (exchanged (token_resolved w access_token) c r) acc new res0 w' /\
        res = decoded res0)).
Proof.
  rewrite request_run.
  destruct (resolved_token self access_token w) as [t|] eqn:Et.
  2:{ intros H. injection H as <- <-. left. auto. }
  cbv zeta. intros H. right.
  exists t, (api_call self method resource kwargs t),
    (session self (exchanges w) (api_call self method resource kwargs t)).
  repeat (split; [reflexivity|]).
  destruct (is_valid_response _) eqn:Ev; simpl in H.
  2:{ injection H as <- <-. left. auto. }
  destruct (is_json_response _) eqn:Ej.
  2:{ injection H as <- <-. right. left. auto. }
  unfold response_json in H.
  destruct (json_body _) as [acc|] eqn:Eb.
  2:{ injection H as <- <-. right. right. left. auto. }
  right. right. right. split; [reflexivity|]. split; [reflexivity|].
  destruct (paginate _ _ _ _ _ _ _ _ _) as [res0 w2] eqn:Ep.
  apply paginate_fetches in Ep. destruct Ep as [new Hnew].
  exists acc, new, res0. split; [reflexivity|].
  destruct res0; injection H as <- <-; auto.
Qed.

(** ** Invalid responses *)

Lemma fetches_invalid (self : GitHub) (method : string) (access_token : option string)
  (kwargs : Kwargs) (w : World) (acc : json) (new : list (HttpCall * Response))
  (res : result json) (w' : World) :
  fetches self method access_token kwargs w acc new res w' ->
  forall c r, In (c, r) new -> is_valid_response r = false ->
    res = Raise (GitHubError r).
Proof.
  induction 1 as [w acc res | w acc url t c r e Ht Hc Hr Hm
                  | w acc url t c r acc' new res w' Ht Hc Hr Hm Hrun IH];
    intros c0 r0 Hin Hinv.
  - destruct Hin.
  - destruct Hin as [Heq|[]]. injection Heq as <- <-.
    rewrite merged_invalid in Hm by assumption. congruence.
  - destruct Hin as [Heq|Hin]; [|eauto].
    injection Heq as <- <-.
    apply merged_return_valid in Hm. destruct Hm. congruence.
Qed.

(** C2: in every run of [request], a fetched response whose status code is
    outside [200, 299], be it the first page or a later one, makes the
    request raise [GitHubError] carrying that response; the outcome is then
    not a value, so nothing merged is returned. *)
Theorem invalid_response_raises (fuel : nat) (self : GitHub) (method resource : string)
  (all_pages : bool) (access_token : option string) (kwargs : Kwargs)
  (w : World) (res : result ApiResult) (w' : World) :
  request fuel self method resource all_pages access_token kwargs w = (res, w') ->
  exists new,
    exchanges w' = (exchanges w ++ new)%list /\
    forall c r, In (c, r) new -> is_valid_response r = false ->
      res = Raise (GitHubError r) /\ (forall v, res <> Return v).
Proof.
  intros H. apply request_fetches in H.
  destruct H as [(_ & -> & ->) | (t & c & r & Ht & Hc & Hr & H)].
  { exists []. rewrite app_nil_r. split; [reflexivity | intros ? ? []]. }
  destruct H as [(Hv & -> & ->) | [(Hv & Hj & -> & ->) | [(Hv & Hj & Hb & -> & ->)
                 | (Hv & Hj & acc & new & res0 & Hb & Hrun & ->)]]].
  - exists [(c, r)]. rewrite exchanges_exchanged. split; [reflexivity|].
    intros c0 r0 [Heq|[]] _. injection Heq as <- <-.
    repeat split. discriminate.
  - exists [(c, r)]. rewrite exchanges_exchanged. split; [reflexivity|].
    intros c0 r0 [Heq|[]] Hinv. injection Heq as <- <-. congruence.
  - exists [(c, r)]. rewrite exchanges_exchanged. split; [reflexivity|].
    intros c0 r0 [Heq|[]] Hinv. injection Heq as <- <-. congruence.
  - exists ((c, r) :: new).
    pose proof Hrun as Hw. apply fetches_world in Hw. destruct Hw as (He & _ & _).
    rewrite exchanges_exchanged, <- app_assoc in He. split; [exact He|].
    intros c0 r0 [Heq|Hin] Hinv.
    + injection Heq as <- <-. congruence.
    + eapply fetches_invalid in Hin; eauto. rewrite Hin. simpl.
      repeat split. discriminate.
Qed.

Lemma invalid_response_raises_witness :
  exists new,
    exchanges (snd (request 5 Example.github_broken "GET" "/items" true None
                      Example.no_kwargs Example.w0)) =
      (exchanges Example.w0 ++ new)%list /\
    forall c r, In (c, r) new -> is_valid_response r = false ->
      fst (request 5 Example.github_broken "GET" "/items" true None
             Example.no_kwargs Example.w0) = Raise (GitHubError r) /\
      (forall v, fst (request 5 Example.github_broken "GET" "/items" true None
                        Example.no_kwargs Example.w0) <> Return v).
Proof.
  exact (invalid_response_raises 5 Example.github_broken "GET" "/items" true None
           Example.no_kwargs Example.w0 _ _ eq_refl).
Defined.

(** ** Malformed and mismatched pages *)

Lemma fetches_by_shape (self : GitHub) (method : string) (access_token : option string)
  (kwargs : Kwargs) (w : World) (acc : json) (new : list (HttpCall * Response))
  (res : result json) (w' : World) :
  fetches self method access_token kwargs w acc new res w' ->
  forall c r body,
    In (c, r) new ->
    is_valid_response r = true -> is_json_response r = true ->
    json_body r = Some body ->
    (is_list body = false -> is_items_dict body = false ->
     res = Raise (GitHubError r)) /\
    (is_list body = true -> is_list acc = false -> res = Raise TypeError) /\
    (is_items_dict body = true -> is_dict acc = false -> res = Raise TypeError) /\
    (is_items_dict body = true -> is_dict acc = true -> is_items_dict acc = false ->
     res = Raise (KeyError "items")).
Proof.
  induction 1 as [w acc res | w acc url t c r e Ht Hc Hr Hm
                  | w acc url t c r acc' new res w' Ht Hc Hr Hm Hrun IH];
    intros c0 r0 body Hin Hv Hj Hb.
  - destruct Hin.
  - destruct Hin as [Heq|[]]. injection Heq as <- <-.
    destruct (merged_by_shape acc _ _ Hv Hj Hb) as (H1 & H2 & H3 & H4).
    repeat split; intros; rewrite <- Hm; auto.
  - destruct Hin as [Heq|Hin].
    + injection Heq as <- <-.
      destruct (merged_by_shape acc _ _ Hv Hj Hb) as (H1 & H2 & H3 & H4).
      repeat split; intros; exfalso;
        [rewrite H1 in Hm | rewrite H2 in Hm | rewrite H3 in Hm | rewrite H4 in Hm];
        auto; discriminate.
    + destruct (merged_shape _ _ _ Hm) as (Sl & Sd & Si).
      rewrite <- Sl, <- Sd, <- Si. eapply IH; eauto.
Qed.

(** C4, as the code has it: in every run of [request], a page fetched after
    the first that is valid JSON and is neither an array nor an object with
    [items] makes the request raise [GitHubError] for that page; an array
    page met while the accumulator is not an array, and an [items] page met
    while the accumulator is not an object, make it raise [TypeError]; an
    [items] page met while the accumulator is an object without [items]
    makes it raise [KeyError].  In each case no value is returned. *)
Theorem malformed_page_raises (fuel : nat) (self : GitHub) (method resource : string)
  (all_pages : bool) (access_token : option string) (kwargs : Kwargs)
  (w : World) (res : result ApiResult) (w' : World)
  (c0 : HttpCall) (r0 : Response) (acc0 : json) (rest : list (HttpCall * Response)) :
  request fuel self method resource all_pages access_token kwargs w = (res, w') ->
  exchanges w' = (exchanges w ++ (c0, r0) :: rest)%list ->
  json_body r0 = Some acc0 ->
  forall c r body,
    In (c, r) rest ->
    is_valid_response r = true -> is_json_response r = true ->
    json_body r = Some body ->
    (is_list body = false -> is_items_dict body = false ->
     res = Raise (GitHubError r)) /\
    (is_list body = true -> is_list acc0 = false -> res = Raise TypeError) /\
    (is_items_dict body = true -> is_dict acc0 = false -> res = Raise TypeError) /\
    (is_items_dict body = true -> is_dict acc0 = true -> is_items_dict acc0 = false ->
     res = Raise (KeyError "items")).
Proof.
  intros H Hex Hacc0 c r body Hin Hv Hj Hb. apply request_fetches in H.
  destruct H as [(_ & -> & ->) | (t & c1 & r1 & Ht & Hc & Hr & H)].
  { rewrite <- (app_nil_r (exchanges w)) in Hex at 1.
    apply app_inv_head in Hex. discriminate. }
  assert (Hone : forall w1,
             w1 = exchanged (token_resolved w access_token) c1 r1 ->
             exchanges w1 = (exchanges w ++ (c0, r0) :: rest)%list -> rest = []).
  { intros w1 -> He. rewrite exchanges_exchanged in He.
    apply app_inv_head in He. now injection He. }
  destruct H as [(_ & _ & E) | [(_ & _ & _ & E) | [(_ & _ & _ & _ & E)
                 | (_ & _ & acc & new & res0 & Hb1 & Hrun & ->)]]];
    try (rewrite (Hone _ E Hex) in Hin; destruct Hin).
  pose proof Hrun as Hw. apply fetches_world in Hw. destruct Hw as (He & _ & _).
  rewrite exchanges_exchanged, <- app_assoc, Hex in He.
  apply app_inv_head in He. simpl in He. injection He as -> -> ->.
  assert (acc = acc0) as -> by congruence.
  destruct (fetches_by_shape _ _ _ _ _ _ _ _ _ Hrun _ _ _ Hin Hv Hj Hb) as (H1 & H2 & H3 & H4).
  repeat split; intros;
    [rewrite H1 | rewrite H2 | rewrite H3 | rewrite H4]; auto.
Qed.

Lemma malformed_page_raises_witness :
  fst (request 5 Example.github_malformed "GET" "/items" true None
         Example.no_kwargs Example.w0) =
    Raise (GitHubError (Example.page (JObj [("message", JStr "gone")]) None)) /\
  fst (request 5 Example.github_mixed "GET" "/items" true None
         Example.no_kwargs Example.w0) = Raise TypeError.
Proof.
  split.
  - exact (proj1 (malformed_page_raises 5 Example.github_malformed "GET" "/items"
                    true None Example.no_kwargs Example.w0 _ _
                    (api_call Example.github_malformed "GET" "/items"
                       Example.no_kwargs "TOK123")
                    Example.page1 (Example.ints [1; 2]%Z)
                    [(api_call Example.github_malformed "GET"
                        "https://api.github.com/items?page=2" Example.no_kwargs "TOK123",
                      Example.page (JObj [("message", JStr "gone")]) None)]
                    eq_refl eq_refl eq_refl
                    _ _ (JObj [("message", JStr "gone")])
                    (or_introl eq_refl) eq_refl eq_refl eq_refl)
                 eq_refl eq_refl).
  - exact (proj1 (proj2 (proj2 (malformed_page_raises 5 Example.github_mixed "GET" "/items"
                    true None Example.no_kwargs Example.w0 _ _
                    (api_call Example.github_mixed "GET" "/items"
                       Example.no_kwargs "TOK123")
                    Example.page1 (Example.ints [1; 2]%Z)
                    [(api_call Example.github_mixed "GET"
                        "https://api.github.com/items?page=2" Example.no_kwargs "TOK123",
                      Example.page
                        (JObj [("total_count", JInt 3); ("items", Example.ints [3]%Z)]) None)]
                    eq_refl eq_refl eq_refl
                    _ _ (JObj [("total_count", JInt 3); ("items", Example.ints [3]%Z)])
                    (or_introl eq_refl) eq_refl eq_refl eq_refl)))
                 eq_refl eq_refl).
Defined.

(** C4 as worded fails: an [items] object after an array page is a page
    whose shape differs from the one being accumulated, and the request
    raises [TypeError], which is not a [GitHubError]. *)
Lemma mixed_shapes_raise_type_error :
  is_list (Example.ints [1; 2]%Z) = true /\
  is_items_dict (JObj [("total_count", JInt 3); ("items", Example.ints [3]%Z)]) = true /\
  fst (request 5 Example.github_mixed "GET" "/items" true None
         Example.no_kwargs Example.w0) = Raise TypeError /\
  forall r, fst (request 5 Example.github_mixed "GET" "/items" true None
                   Example.no_kwargs Example.w0) <> Raise (GitHubError r).
Proof.
  repeat split. intros r. discriminate.
Qed.

(** ** One token per outbound call *)

(** The header of a call, by the way its token was resolved: the explicit
    token, or the answer of the getter's [n]-th invocation. *)
Lemma resolved_authorization (self : GitHub) (method url : string)
  (access_token : option string) (kwargs : Kwargs) (w : World) (t : string) :
  resolved_token self access_token w = Some t ->
  match access_token with
  | Some t' =>
      authorization_of (api_call self method url kwargs t) = Some ("token " ++ t')
  | None =>
      exists g, get_access_token self = Some g /\
        authorization_of (api_call self method url kwargs t) =
        Some ("token " ++ percent_s (g (getter_calls w)))
  end.
Proof.
  unfold resolved_token, authorization_of, api_call. simpl.
  destruct access_token as [t'|].
  - intros H. injection H as ->. apply get_set_same.
  - destruct (get_access_token self) as [g|]; [|discriminate].
    intros H. injection H as <-. exists g. split; [reflexivity|].
    apply get_set_same.
Qed.

Lemma fetches_authorization (self : GitHub) (method : string)
  (access_token : option string) (kwargs : Kwargs) (w : World) (acc : json)
  (new : list (HttpCall * Response)) (res : result json) (w' : World) :
  fetches self method access_token kwargs w acc new res w' ->
  forall i c r, nth_error new i = Some (c, r) ->
    match access_token with
    | Some t => authorization_of c = Some ("token " ++ t)
    | None =>
        exists g, get_access_token self = Some g /\
          authorization_of c = Some ("token " ++ percent_s (g (getter_calls w + i)))
    end.
Proof.
  induction 1 as [w acc res | w acc url t c r e Ht Hc Hr Hm
                  | w acc url t c r acc' new res w' Ht Hc Hr Hm Hrun IH];
    intros i c0 r0 Hi.
  - destruct i; discriminate.
  - destruct i as [|[|i]]; try discriminate. injection Hi as <- <-. subst c.
    rewrite Nat.add_0_r. eapply resolved_authorization; eauto.
  - destruct i as [|i].
    + injection Hi as <- <-. subst c.
      rewrite Nat.add_0_r. eapply resolved_authorization; eauto.
    + simpl in Hi. specialize (IH _ _ _ Hi).
      destruct access_token as [t'|]; [exact IH|].
      simpl in IH. now rewrite Nat.add_succ_r.
Qed.

(** The exchanges of a run of [request], with their headers. *)
Lemma request_exchanges (fuel : nat) (self : GitHub) (method resource : string)
  (all_pages : bool) (access_token : option string) (kwargs : Kwargs)
  (w : World) (res : result ApiResult) (w' : World) :
  request fuel self method resource all_pages access_token kwargs w = (res, w') ->
  exists new,
    exchanges w' = (exchanges w ++ new)%list /\
    getter_calls w' =
      getter_calls w + (match access_token with Some _ => 0 | None => length new end) /\
    forall i c r, nth_error new i = Some (c, r) ->
      match access_token with
      | Some t => authorization_of c = Some ("token " ++ t)
      | None =>
          exists g, get_access_token self = Some g /\
            authorization_of c = Some ("token " ++ percent_s (g (getter_calls w + i)))
      end.
Proof.
  intros H. apply request_fetches in H.
  destruct H as [(_ & -> & ->) | (t & c & r & Ht & Hc & Hr & H)].
  { exists []. rewrite app_nil_r. repeat split.
    - destruct access_token; simpl; lia.
    - intros [|i] ? ?; discriminate. }
  assert (Hone : forall i c1 r1, nth_error [(c, r)] i = Some (c1, r1) ->
            match access_token with
            | Some t => authorization_of c1 = Some ("token " ++ t)
            | None =>
                exists g, get_access_token self = Some g /\
                  authorization_of c1 =
                  Some ("token " ++ percent_s (g (getter_calls w + i)))
            end).
  { intros [|[|i]] c1 r1 Hi; try discriminate. injection Hi as <- <-. subst c.
    rewrite Nat.add_0_r. eapply resolved_authorization; eauto. }
  assert (Hw1 : exchanges (exchanged (token_resolved w access_token) c r) =
                (exchanges w ++ [(c, r)])%list /\
                getter_calls (exchanged (token_resolved w access_token) c r) =
                getter_calls w + (match access_token with
                                  | Some _ => 0 | None => length [(c, r)] end)).
  { rewrite exchanges_exchanged. destruct access_token; simpl; split; auto; lia. }
  destruct H as [(_ & _ & ->) | [(_ & _ & _ & ->) | [(_ & _ & _ & _ & ->)
                 | (_ & _ & acc & new & res0 & _ & Hrun & _)]]];
    try solve [exists [(c, r)]; destruct Hw1; split; [|split]; auto].
  exists ((c, r) :: new).
  pose proof Hrun as Hw. apply fetches_world in Hw. destruct Hw as (He & Hg & _).
  destruct Hw1 as (He1 & Hg1).
  rewrite He1, <- app_assoc in He. split; [exact He|]. split.
  - rewrite Hg, Hg1. destruct access_token; simpl; lia.
  - intros [|i] c1 r1 Hi; [apply (Hone 0 c1 r1 Hi)|].
    simpl in Hi.
    pose proof (fetches_authorization _ _ _ _ _ _ _ _ _ Hrun _ _ _ Hi) as Ha.
    destruct access_token as [t'|]; [exact Ha|].
    destruct Ha as (g & Hgetter & Ha). exists g. split; [exact Hgetter|].
    rewrite Ha, Hg1. simpl length.
    replace (getter_calls w + 1 + i) with (getter_calls w + S i) by lia.
    reflexivity.
Qed.

(** ** Chained pages *)

Lemma has_token_source_resolved (self : GitHub) (access_token : option string) :
  has_token_source self access_token ->
  forall w, exists t, resolved_token self access_token w = Some t.
Proof.
  intros [H|H] w; unfold resolved_token.
  - destruct access_token as [t|]; [eauto | congruence].
  - destruct access_token as [t|]; [eauto|].
    destruct (get_access_token self) as [g|]; [eauto | congruence].
Qed.

Lemma merged_array (acc : list json) (page : Response) :
  array_page page ->
  merged (JArr acc) page = Return (JArr (acc ++ page_items page)).
Proof.
  intros (Hv & Hj & l & Hb). unfold merged, response_json, page_items.
  rewrite Hv, Hj, Hb. reflexivity.
Qed.

(** The loop on a chain of array pages: with an iteration for every page
    still to come, it fetches them in order, one exchange each, and returns
    the accumulator extended by their elements. *)
Lemma paginate_chained (self : GitHub) (method : string)
  (access_token : option string) (kwargs : Kwargs) :
  has_token_source self access_token ->
  forall pages fuel resource page acc w,
    chained self ((resource, page) :: pages) ->
    Forall array_page (map snd pages) ->
    length pages <= fuel ->
    exists w' new,
      paginate fuel self method true access_token kwargs page (JArr acc) w =
        (Return (JArr (acc ++ flat_map page_items (map snd pages))), w') /\
      exchanges w' = (exchanges w ++ new)%list /\
      map snd new = map snd pages /\
      map (fun x => call_url (fst x)) new =
        map (fun x => _get_resource_url self (fst x)) pages /\
      getter_calls w' =
        getter_calls w +
        (match access_token with Some _ => 0 | None => length pages end).
Proof.
  intros Hsrc pages.
  induction pages as [|[resource' page'] rest IH];
    intros fuel resource page acc w Hch Hall Hfuel.
  - destruct Hch as (_ & Hnone & _). exists w, [].
    rewrite !app_nil_r. simpl.
    split; [|repeat split; destruct access_token; lia].
    destruct fuel; [rewrite paginate_zero | rewrite paginate_step];
      now rewrite Hnone.
  - destruct Hch as (_ & (link & Hlink & Hurl) & Hrest).
    destruct fuel as [|fuel]; [simpl in Hfuel; lia|].
    simpl in Hfuel. apply le_S_n in Hfuel.
    inversion Hall as [|? ? Hpage Hall']; subst.
    destruct (has_token_source_resolved _ _ Hsrc w) as [t Ht].
    pose proof Hrest as (Hans & _).
    specialize (Hans (exchanges w) (api_call self method resource' kwargs t) eq_refl).
    destruct (IH fuel resource' page' (acc ++ page_items page')%list
                (exchanged (token_resolved w access_token)
                   (api_call self method resource' kwargs t) page')
                Hrest Hall' Hfuel)
      as (w' & new & Hrun & Hex & Hsnd & Hurls & Hget).
    exists w', ((api_call self method resource' kwargs t, page') :: new).
    split; [|split; [|split; [|split]]].
    + rewrite paginate_step, Hlink. unfold link_url. rewrite Hurl, Ht, Hans.
      rewrite (merged_array acc _ Hpage), Hrun. simpl. now rewrite <- app_assoc.
    + rewrite Hex, exchanges_exchanged, <- app_assoc. reflexivity.
    + simpl. now rewrite Hsnd.
    + simpl. now rewrite Hurls.
    + rewrite Hget. destruct access_token; simpl; lia.
Qed.

(** [request] on a chain of array pages. *)
Lemma request_chained (fuel : nat) (self : GitHub) (method resource : string)
  (page : Response) (pages : list (string * Response))
  (access_token : option string) (kwargs : Kwargs) (w : World) :
  has_token_source self access_token ->
  chained self ((resource, page) :: pages) ->
  Forall array_page (page :: map snd pages) ->
  length pages <= fuel ->
  exists w' new,
    request fuel self method resource true access_token kwargs w =
      (Return (Decoded (JArr (flat_map page_items (page :: map snd pages)))), w') /\
    exchanges w' = (exchanges w ++ new)%list /\
    map snd new = page :: map snd pages /\
    map (fun x => call_url (fst x)) new =
      map (_get_resource_url self) (resource :: map fst pages) /\
    getter_calls w' =
      getter_calls w +
      (match access_token with Some _ => 0 | None => S (length pages) end).
Proof.
  intros Hsrc Hch Hall Hfuel.
  inversion Hall as [|? ? Hpage Hall']; subst.
  destruct (has_token_source_resolved _ _ Hsrc w) as [t Ht].
  pose proof Hch as (Hans & _).
  specialize (Hans (exchanges w) (api_call self method resource kwargs t) eq_refl).
  pose proof Hpage as (Hv & Hj & l & Hb).
  destruct (paginate_chained self method access_token kwargs Hsrc
              pages fuel resource page l
              (exchanged (token_resolved w access_token)
                 (api_call self method resource kwargs t) page)
              Hch Hall' Hfuel)
    as (w' & new & Hrun & Hex & Hsnd & Hurls & Hget).
  exists w', ((api_call self method resource kwargs t, page) :: new).
  split; [|split; [|split; [|split]]].
  - rewrite request_run, Ht. cbv zeta. rewrite Hans, Hv, Hj.
    unfold response_json. rewrite Hb. simpl negb. cbv iota.
    rewrite Hrun. cbn [flat_map map]. unfold page_items at 2. now rewrite Hb.
  - rewrite Hex, exchanges_exchanged, <- app_assoc. reflexivity.
  - simpl. now rewrite Hsnd.
  - simpl. rewrite Hurls. now rewrite map_map.
  - rewrite Hget. destruct access_token; simpl; lia.
Qed.

(** With fewer iterations than pages still to come, the loop is still
    running when the iterations are used up: it does not stop while pages
    link to a next one. *)
Lemma paginate_chained_short (self : GitHub) (method : string)
  (access_token : option string) (kwargs : Kwargs) :
  has_token_source self access_token ->
  forall pages fuel resource page acc w,
    chained self ((resource, page) :: pages) ->
    Forall array_page (map snd pages) ->
    fuel < length pages ->
    fst (paginate fuel self method true access_token kwargs page (JArr acc) w) =
    Diverge.
Proof.
  intros Hsrc pages.
  induction pages as [|[resource' page'] rest IH];
    intros fuel resource page acc w Hch Hall Hfuel; [simpl in Hfuel; lia|].
  destruct Hch as (_ & (link & Hlink & Hurl) & Hrest).
  destruct fuel as [|fuel].
  - rewrite paginate_zero. now rewrite Hlink.
  - simpl in Hfuel. apply Nat.succ_lt_mono in Hfuel.
    inversion Hall as [|? ? Hpage Hall']; subst.
    destruct (has_token_source_resolved _ _ Hsrc w) as [t Ht].
    pose proof Hrest as (Hans & _).
    specialize (Hans (exchanges w) (api_call self method resource' kwargs t) eq_refl).
    rewrite paginate_step, Hlink. unfold link_url. rewrite Hurl, Ht, Hans.
    rewrite (merged_array acc _ Hpage).
    eapply IH; eauto.
Qed.

Lemma request_chained_short (fuel : nat) (self : GitHub) (method resource : string)
  (page : Response) (pages : list (string * Response))
  (access_token : option string) (kwargs : Kwargs) (w : World) :
  has_token_source self access_token ->
  chained self ((resource, page) :: pages) ->
  Forall array_page (page :: map snd pages) ->
  fuel < length pages ->
  fst (request fuel self method resource true access_token kwargs w) = Diverge.
Proof.
  intros Hsrc Hch Hall Hfuel.
  inversion Hall as [|? ? Hpage Hall']; subst.
  destruct (has_token_source_resolved _ _ Hsrc w) as [t Ht].
  pose proof Hch as (Hans & _).
  specialize (Hans (exchanges w) (api_call self method resource kwargs t) eq_refl).
  pose proof Hpage as (Hv & Hj & l & Hb).
  pose proof (paginate_chained_short self method access_token kwargs Hsrc
                pages fuel resource page l
                (exchanged (token_resolved w access_token)
                   (api_call self method resource kwargs t) page)
                Hch Hall' Hfuel) as Hd.
  rewrite request_run, Ht. cbv zeta. rewrite Hans, Hv, Hj.
  unfold response_json. rewrite Hb. simpl negb. cbv iota.
  destruct (paginate _ _ _ _ _ _ _ _ _) as [res0 w2].
  simpl in Hd. now rewrite Hd.
Qed.

(** The mock upstream serves its three pages in a chain. *)
Lemma three_pages_chained :
  chained Example.github
    (("/items", Example.page1) :: tl Example.three_pages).
Proof.
  simpl. repeat split;
    try (intros history c H; simpl; rewrite H; reflexivity);
    eexists; split; reflexivity.
Qed.

Lemma three_pages_arrays :
  Forall array_page [Example.page1; Example.page2; Example.page3].
Proof.
  repeat constructor; eexists; reflexivity.
Qed.

(** C1: when the pages of a resource are served in a chain (each page but
    the last links to the next through its [next] relation, the last has no
    [next] link) and all are valid JSON arrays, a request with [all_pages]
    returns their elements concatenated in order, after exactly one exchange
    per page, in chain order, each at the URL the previous page linked to.
    The loop runs one iteration per page after the first: given that many
    it stops at the page without [next] link, given fewer it is still
    running when they are used up. *)
Theorem all_pages_concatenates (fuel : nat) (self : GitHub) (method resource : string)
  (page : Response) (pages : list (string * Response))
  (access_token : option string) (kwargs : Kwargs) (w : World) :
  has_token_source self access_token ->
  chained self ((resource, page) :: pages) ->
  Forall array_page (page :: map snd pages) ->
  (length pages <= fuel ->
   exists w' new,
     request fuel self method resource true access_token kwargs w =
       (Return (Decoded (JArr (flat_map page_items (page :: map snd pages)))), w') /\
     exchanges w' = (exchanges w ++ new)%list /\
     map snd new = page :: map snd pages /\
     map (fun x => call_url (fst x)) new =
       map (_get_resource_url self) (resource :: map fst pages)) /\
  (fuel < length pages ->
   fst (request fuel self method resource true access_token kwargs w) = Diverge).
Proof.
  intros Hsrc Hch Hall. split; intros Hfuel.
  - destruct (request_chained fuel self method resource page pages access_token
                kwargs w Hsrc Hch Hall Hfuel)
      as (w' & new & Hrun & Hex & Hsnd & Hurls & _).
    exists w', new. auto.
  - now apply request_chained_short with (page := page) (pages := pages).
Qed.

Lemma all_pages_concatenates_witness :
  exists w' new,
    request 2 Example.github "GET" "/items" true None Example.no_kwargs Example.w0 =
      (Return (Decoded (Example.ints [1; 2; 3; 4; 5]%Z)), w') /\
    exchanges w' = (exchanges Example.w0 ++ new)%list /\
    map snd new = [Example.page1; Example.page2; Example.page3] /\
    map (fun x => call_url (fst x)) new =
      ["https://api.github.com/items"; "https://api.github.com/items?page=2";
       "https://api.github.com/items?page=3"].
Proof.
  exact (proj1 (all_pages_concatenates 2 Example.github "GET" "/items" Example.page1
                  (tl Example.three_pages) None Example.no_kwargs Example.w0
                  (or_intror (fun H => eq_ind (Some Example.getter)
                                         (fun o => match o with
                                                   | Some _ => True
                                                   | None => False
                                                   end)
                                         I None H))
                  three_pages_chained three_pages_arrays) (le_n 2)).
Defined.

(** C10: in every run of [request] without an explicit token and with a
    getter registered, the getter is invoked once per exchange, and the
    [Authorization] header of the [i]-th exchange is built from the getter's
    answer at that invocation; on a chain of [n] array pages this makes [n]
    invocations.  With an explicit token the getter is not invoked and every
    exchange carries that token. *)
Theorem getter_once_per_call (fuel : nat) (self : GitHub) (method resource : string)
  (all_pages : bool) (kwargs : Kwargs) (w : World) :
  (forall g res w',
     get_access_token self = Some g ->
     request fuel self method resource all_pages None kwargs w = (res, w') ->
     exists new,
       exchanges w' = (exchanges w ++ new)%list /\
       getter_calls w' = getter_calls w + length new /\
       forall i c r, nth_error new i = Some (c, r) ->
         authorization_of c = Some ("token " ++ percent_s (g (getter_calls w + i)))) /\
  (forall t res w',
     request fuel self method resource all_pages (Some t) kwargs w = (res, w') ->
     exists new,
       exchanges w' = (exchanges w ++ new)%list /\
       getter_calls w' = getter_calls w /\
       forall i c r, nth_error new i = Some (c, r) ->
         authorization_of c = Some ("token " ++ t)) /\
  (forall page pages,
     get_access_token self <> None ->
     chained self ((resource, page) :: pages) ->
     Forall array_page (page :: map snd pages) ->
     length pages <= fuel ->
     getter_calls (snd (request fuel self method resource true None kwargs w)) =
     getter_calls w + length (page :: map snd pages)).
Proof.
  split; [|split].
  - intros g res w' Hg H. apply request_exchanges in H.
    destruct H as (new & Hex & Hcalls & Hauth). exists new.
    split; [exact Hex|]. split; [exact Hcalls|].
    intros i c r Hi. destruct (Hauth i c r Hi) as (g' & Hg' & Ha).
    rewrite Hg in Hg'. injection Hg' as <-. exact Ha.
  - intros t res w' H. apply request_exchanges in H.
    destruct H as (new & Hex & Hcalls & Hauth). exists new.
    split; [exact Hex|]. split; [lia|]. exact Hauth.
  - intros page pages Hg Hch Hall Hfuel.
    destruct (request_chained fuel self method resource page pages None
                kwargs w (or_intror Hg) Hch Hall Hfuel)
      as (w' & new & Hrun & _ & _ & _ & Hcalls).
    rewrite Hrun. simpl. rewrite Hcalls, length_map. reflexivity.
Qed.

Lemma getter_once_per_call_witness :
  (exists new,
     exchanges (snd (request 2 Example.github "GET" "/items" true None
                       Example.no_kwargs Example.w0)) =
       (exchanges Example.w0 ++ new)%list /\
     getter_calls (snd (request 2 Example.github "GET" "/items" true None
                          Example.no_kwargs Example.w0)) =
       getter_calls Example.w0 + length new /\
     forall i c r, nth_error new i = Some (c, r) ->
       authorization_of c =
       Some ("token " ++ percent_s (Example.getter (getter_calls Example.w0 + i)))) /\
  (exists new,
     exchanges (snd (request 2 Example.github "GET" "/items" true (Some "EXPLICIT")
                       Example.no_kwargs Example.w0)) =
       (exchanges Example.w0 ++ new)%list /\
     getter_calls (snd (request 2 Example.github "GET" "/items" true (Some "EXPLICIT")
                          Example.no_kwargs Example.w0)) =
       getter_calls Example.w0 /\
     forall i c r, nth_error new i = Some (c, r) ->
       authorization_of c = Some ("token " ++ "EXPLICIT")) /\
  getter_calls (snd (request 2 Example.github "GET" "/items" true None
                       Example.no_kwargs Example.w0)) = 3.
Proof.
  split; [|split].
  - exact (proj1 (getter_once_per_call 2 Example.github "GET" "/items" true
                    Example.no_kwargs Example.w0)
             Example.getter _ _ eq_refl eq_refl).
  - exact (proj1 (proj2 (getter_once_per_call 2 Example.github "GET" "/items" true
                           Example.no_kwargs Example.w0))
             "EXPLICIT" _ _ eq_refl).
  - exact (proj2 (proj2 (getter_once_per_call 2 Example.github "GET" "/items" true
                           Example.no_kwargs Example.w0))
             Example.page1 (tl Example.three_pages)
             (fun H => eq_ind (Some Example.getter)
                         (fun o => match o with Some _ => True | None => False end)
                         I None H)
             three_pages_chained three_pages_arrays (le_n 2)).
Defined.

(** * Further properties *)

(** ** Runs of [request], exchange by exchange *)

(** Every call of the loop is the call [raw_request] builds from the
    arguments of the request. *)
Lemma fetches_calls (self : GitHub) (method : string) (access_token : option string)
  (kwargs : Kwargs) (w : World) (acc : json) (new : list (HttpCall * Response))
  (res : result json) (w' : World) :
  fetches self method access_token kwargs w acc new res w' ->
  forall c r, In (c, r) new -> exists url t, c = api_call self method url kwargs t.
Proof.
  induction 1 as [w acc res | w acc url t c r e Ht Hc Hr Hm
                  | w acc url t c r acc' new res w' Ht Hc Hr Hm Hrun IH];
    intros c0 r0 Hin.
  - destruct Hin.
  - destruct Hin as [Heq|[]]. injection Heq as <- <-. eauto.
  - destruct Hin as [Heq|Hin]; [|eauto]. injection Heq as <- <-. eauto.
Qed.

(** The pages fetched after the first one are a run of the loop. *)
Lemma request_rest (fuel : nat) (self : GitHub) (method resource : string)
  (all_pages : bool) (access_token : option string) (kwargs : Kwargs)
  (w : World) (res : result ApiResult) (w' : World)
  (c0 : HttpCall) (r0 : Response) (rest : list (HttpCall * Response)) :
  request fuel self method resource all_pages access_token kwargs w = (res, w') ->
  exchanges w' = (exchanges w ++ (c0, r0) :: rest)%list ->
  (exists t, resolved_token self access_token w = Some t /\
             c0 = api_call self method resource kwargs t /\
             r0 = session self (exchanges w) c0) /\
  (rest = [] \/
   exists acc res0 w1,
     is_valid_response r0 = true /\ is_json_response r0 = true /\
     json_body r0 = Some acc /\
     fetches self method access_token kwargs w1 acc rest res0 w' /\
     res = decoded res0).
Proof.
  intros H Hex. apply request_fetches in H.
  destruct H as [(_ & -> & ->) | (t & c1 & r1 & Ht & Hc & Hr & H)].
  { rewrite <- (app_nil_r (exchanges w)) in Hex at 1.
    apply app_inv_head in Hex. discriminate. }
  assert (Hone : forall w1,
             w1 = exchanged (token_resolved w access_token) c1 r1 ->
             exchanges w1 = (exchanges w ++ (c0, r0) :: rest)%list ->
             c0 = c1 /\ r0 = r1 /\ rest = []).
  { intros w1 -> He. rewrite exchanges_exchanged in He.
    apply app_inv_head in He. injection He as <- <- <-. auto. }
  destruct H as [(_ & _ & E) | [(_ & _ & _ & E) | [(_ & _ & _ & _ & E)
                 | (Hv & Hj & acc & new & res0 & Hb1 & Hrun & ->)]]];
    try (destruct (Hone _ E Hex) as (-> & -> & ->); split; [eauto | now left]).
  pose proof Hrun as Hw. apply fetches_world in Hw. destruct Hw as (He & _ & _).
  rewrite exchanges_exchanged, <- app_assoc, Hex in He.
  apply app_inv_head in He. simpl in He. injection He as -> -> ->.
  split; [eauto|]. right.
  exists acc, res0, (exchanged (token_resolved w access_token) c1 r1). auto.
Qed.

(** X5: every exchange of a request repeats the arguments of the request.
    Method, redirect policy, extra keyword arguments and the caller's
    headers other than [Authorization] are the same on the first call and
    on every pagination fetch; only the URL changes. *)
Theorem same_parameters_every_exchange (fuel : nat) (self : GitHub)
  (method resource : string) (all_pages : bool) (access_token : option string)
  (kwargs : Kwargs) (w : World) (res : result ApiResult) (w' : World) :
  request fuel self method resource all_pages access_token kwargs w = (res, w') ->
  exists new,
    exchanges w' = (exchanges w ++ new)%list /\
    forall c r, In (c, r) new ->
      call_method c = method /\
      call_follow_redirects c = true /\
      call_data c = None /\
      call_kwargs c = kw_extra kwargs /\
      exists headers,
        call_headers c = Some headers /\
        forall name, name <> "Authorization" ->
          get headers name = get (_pop_headers kwargs) name.
Proof.
  intros H.
  assert (Hshape : forall c, (exists url t, c = api_call self method url kwargs t) ->
            call_method c = method /\ call_follow_redirects c = true /\
            call_data c = None /\ call_kwargs c = kw_extra kwargs /\
            exists headers,
              call_headers c = Some headers /\
              forall name, name <> "Authorization" ->
                get headers name = get (_pop_headers kwargs) name).
  { intros c (url & t & ->). repeat split. eexists. split; [reflexivity|].
    intros name Hne. apply get_set_other. congruence. }
  apply request_fetches in H.
  destruct H as [(_ & -> & ->) | (t & c & r & Ht & Hc & Hr & H)].
  { exists []. rewrite app_nil_r. split; [reflexivity | intros ? ? []]. }
  destruct H as [(_ & _ & ->) | [(_ & _ & _ & ->) | [(_ & _ & _ & _ & ->)
                 | (_ & _ & acc & new & res0 & _ & Hrun & _)]]];
    try solve [exists [(c, r)]; rewrite exchanges_exchanged;
               split; [reflexivity|];
               intros c1 r1 [Heq|[]]; injection Heq as <- <-;
               apply Hshape; eauto].
  exists ((c, r) :: new).
  pose proof Hrun as Hw. apply fetches_world in Hw. destruct Hw as (He & _ & _).
  rewrite exchanges_exchanged, <- app_assoc in He. split; [exact He|].
  intros c1 r1 [Heq|Hin]; apply Hshape.
  - injection Heq as <- <-. eauto.
  - eapply fetches_calls; eauto.
Qed.

Lemma same_parameters_every_exchange_witness :
  exists new,
    exchanges (snd (request 2 Example.github "GET" "/items" true None
                      {| kw_headers := Some (Some [("Accept", "application/json")]);
                         kw_extra := [("timeout", "5")] |} Example.w0)) =
      (exchanges Example.w0 ++ new)%list /\
    forall c r, In (c, r) new ->
      call_method c = "GET" /\
      call_follow_redirects c = true /\
      call_data c = None /\
      call_kwargs c = [("timeout", "5")] /\
      exists headers,
        call_headers c = Some headers /\
        forall name, name <> "Authorization" ->
          get headers name = get [("Accept", "application/json")] name.
Proof.
  exact (same_parameters_every_exchange 2 Example.github "GET" "/items" true None
           {| kw_headers := Some (Some [("Accept", "application/json")]);
              kw_extra := [("timeout", "5")] |} Example.w0 _ _ eq_refl).
Defined.

(** ** Single responses *)

(** The loop does nothing when [all_pages] is off. *)
Lemma paginate_off (fuel : nat) (self : GitHub) (method : string)
  (access_token : option string) (kwargs : Kwargs) (response : Response)
  (acc : json) (w : World) :
  paginate fuel self method false access_token kwargs response acc w =
  (Return acc, w).
Proof.
  destruct fuel; [rewrite paginate_zero | rewrite paginate_step]; reflexivity.
Qed.

(** X2: without [all_pages], a request is one exchange however many
    iterations are allowed and whatever the response links to: a valid JSON
    response gives its decoded body unchanged, and the [next] link is not
    followed. *)
Theorem single_page_request (fuel : nat) (self : GitHub) (method resource : string)
  (access_token : option string) (kwargs : Kwargs) (w : World)
  (t : string) (r : Response) (v : json) :
  resolved_token self access_token w = Some t ->
  session self (exchanges w) (api_call self method resource kwargs t) = r ->
  is_valid_response r = true ->
  is_json_response r = true ->
  json_body r = Some v ->
  request fuel self method resource false access_token kwargs w =
  (Return (Decoded v),
   exchanged (token_resolved w access_token)
     (api_call self method resource kwargs t) r).
Proof.
  intros Ht Hr Hv Hj Hb. rewrite request_run, Ht. cbv zeta.
  rewrite Hr, Hv, Hj. unfold response_json. rewrite Hb. simpl negb. cbv iota.
  now rewrite paginate_off.
Qed.

Lemma single_page_request_witness :
  request 0 Example.github "GET" "/items" false None Example.no_kwargs Example.w0 =
  (Return (Decoded (Example.ints [1; 2]%Z)),
   exchanged (token_resolved Example.w0 None)
     (api_call Example.github "GET" "/items" Example.no_kwargs "TOK123")
     Example.page1).
Proof.
  exact (single_page_request 0 Example.github "GET" "/items" None Example.no_kwargs
           Example.w0 "TOK123" Example.page1 (Example.ints [1; 2]%Z)
           eq_refl eq_refl eq_refl eq_refl eq_refl).
Defined.

(** X3: a valid response whose content type is not JSON is returned as it
    is after one exchange; [all_pages], the number of iterations allowed,
    the [next] link and the body play no part. *)
Theorem raw_response_returned (fuel : nat) (self : GitHub) (method resource : string)
  (all_pages : bool) (access_token : option string) (kwargs : Kwargs) (w : World)
  (t : string) (r : Response) :
  resolved_token self access_token w = Some t ->
  session self (exchanges w) (api_call self method resource kwargs t) = r ->
  is_valid_response r = true ->
  is_json_response r = false ->
  request fuel self method resource all_pages access_token kwargs w =
  (Return (Raw r),
   exchanged (token_resolved w access_token)
     (api_call self method resource kwargs t) r).
Proof.
  intros Ht Hr Hv Hj. rewrite request_run, Ht. cbv zeta.
  now rewrite Hr, Hv, Hj.
Qed.

Lemma raw_response_returned_witness :
  request 3 Fixture.github_zen "GET" "/zen" true None Example.no_kwargs Example.w0 =
  (Return (Raw Fixture.zen),
   exchanged (token_resolved Example.w0 None)
     (api_call Fixture.github_zen "GET" "/zen" Example.no_kwargs "TOK123")
     Fixture.zen).
Proof.
  exact (raw_response_returned 3 Fixture.github_zen "GET" "/zen" true None
           Example.no_kwargs Example.w0 "TOK123" Fixture.zen
           eq_refl eq_refl eq_refl eq_refl).
Defined.

(** ** Pages that cannot be merged *)

Lemma merged_not_json (acc : json) (r : Response) :
  is_json_response r = false -> merged acc r = Raise (GitHubError r).
Proof.
  intros H. unfold merged. rewrite H. now rewrite orb_true_r.
Qed.

Lemma merged_undecodable (acc : json) (r : Response) :
  is_valid_response r = true -> is_json_response r = true ->
  json_body r = None -> merged acc r = Raise JSONDecodeError.
Proof.
  intros Hv Hj Hb. unfold merged, response_json. now rewrite Hv, Hj, Hb.
Qed.

(** What a fetched page that does not merge does to the run. *)
Lemma fetches_raise (self : GitHub) (method : string) (access_token : option string)
  (kwargs : Kwargs) (w : World) (acc : json) (new : list (HttpCall * Response))
  (res : result json) (w' : World) :
  fetches self method access_token kwargs w acc new res w' ->
  forall c r e, In (c, r) new -> (forall a, merged a r = Raise e) ->
    res = Raise e.
Proof.
  induction 1 as [w acc res | w acc url t c r e Ht Hc Hr Hm
                  | w acc url t c r acc' new res w' Ht Hc Hr Hm Hrun IH];
    intros c0 r0 e0 Hin Hraise.
  - destruct Hin.
  - destruct Hin as [Heq|[]]. injection Heq as <- <-.
    rewrite Hraise in Hm. exact (eq_sym Hm).
  - destruct Hin as [Heq|Hin]; [|eauto].
    injection Heq as <- <-. rewrite Hraise in Hm. discriminate.
Qed.

(** X4: a page fetched after the first whose content type is not JSON makes
    the request raise [GitHubError] for that page, even when its status is
    valid; only a first response may be returned raw. *)
Theorem later_page_not_json_raises (fuel : nat) (self : GitHub)
  (method resource : string) (all_pages : bool) (access_token : option string)
  (kwargs : Kwargs) (w : World) (res : result ApiResult) (w' : World)
  (c0 : HttpCall) (r0 : Response) (rest : list (HttpCall * Response)) :
  request fuel self method resource all_pages access_token kwargs w = (res, w') ->
  exchanges w' = (exchanges w ++ (c0, r0) :: rest)%list ->
  forall c r, In (c, r) rest -> is_json_response r = false ->
    res = Raise (GitHubError r).
Proof.
  intros H Hex c r Hin Hj.
  destruct (request_rest _ _ _ _ _ _ _ _ _ _ _ _ _ H Hex) as (_ & [-> | Hrest]).
  { destruct Hin. }
  destruct Hrest as (acc & res0 & w1 & _ & _ & _ & Hrun & ->).
  rewrite (fetches_raise _ _ _ _ _ _ _ _ _ Hrun c r (GitHubError r) Hin
             (fun a => merged_not_json a r Hj)).
  reflexivity.
Qed.

Lemma later_page_not_json_raises_witness :
  fst (request 3 Fixture.github_html "GET" "/items" true None
         Example.no_kwargs Example.w0) = Raise (GitHubError Fixture.html).
Proof.
  exact (later_page_not_json_raises 3 Fixture.github_html "GET" "/items" true None
           Example.no_kwargs Example.w0 _ _
           (api_call Fixture.github_html "GET" "/items" Example.no_kwargs "TOK123")
           Example.page1
           [(api_call Fixture.github_html "GET" "https://api.github.com/items?page=2"
               Example.no_kwargs "TOK123", Fixture.html)]
           eq_refl eq_refl _ _ (or_introl eq_refl) eq_refl).
Defined.

(** X6: a response announced as JSON whose body does not decode, be it the
    first page or a later one, makes the request raise the decoder's error,
    not [GitHubError]. *)
Theorem undecodable_page_raises (fuel : nat) (self : GitHub)
  (method resource : string) (all_pages : bool) (access_token : option string)
  (kwargs : Kwargs) (w : World) (res : result ApiResult) (w' : World)
  (new : list (HttpCall * Response)) :
  request fuel self method resource all_pages access_token kwargs w = (res, w') ->
  exchanges w' = (exchanges w ++ new)%list ->
  forall c r, In (c, r) new ->
    is_valid_response r = true -> is_json_response r = true ->
    json_body r = None ->
    res = Raise JSONDecodeError.
Proof.
  intros H Hex c r Hin Hv Hj Hb.
  destruct new as [|[c0 r0] rest]; [destruct Hin|].
  destruct (request_rest _ _ _ _ _ _ _ _ _ _ _ _ _ H Hex)
    as ((t & Ht & Hc0 & Hr0) & Hrest).
  destruct Hin as [Heq|Hin].
  - injection Heq as -> ->. rewrite request_run, Ht in H. cbv zeta in H.
    rewrite <- Hc0, <- Hr0, Hv, Hj in H. unfold response_json in H.
    rewrite Hb in H. simpl in H. now injection H as <- _.
  - destruct Hrest as [-> | (acc & res0 & w1 & _ & _ & _ & Hrun & ->)];
      [destruct Hin|].
    rewrite (fetches_raise _ _ _ _ _ _ _ _ _ Hrun c r JSONDecodeError Hin
               (fun a => merged_undecodable a r Hv Hj Hb)).
    reflexivity.
Qed.

Lemma undecodable_page_raises_witness :
  fst (request 3 Fixture.github_garbled "GET" "/items" true None
         Example.no_kwargs Example.w0) = Raise JSONDecodeError.
Proof.
  exact (undecodable_page_raises 3 Fixture.github_garbled "GET" "/items" true None
           Example.no_kwargs Example.w0 _ _
           [(api_call Fixture.github_garbled "GET" "/items" Example.no_kwargs "TOK123",
             Fixture.garbled)]
           eq_refl eq_refl _ _ (or_introl eq_refl) eq_refl eq_refl eq_refl).
Defined.

(** ** Pages that link in a circle *)

Lemma paginate_self_linked (self : GitHub) (method resource : string)
  (page : Response) (link : dict string) (access_token : option string)
  (kwargs : Kwargs) :
  has_token_source self access_token ->
  answers self (_get_resource_url self resource) page ->
  array_page page ->
  next_link page = Some link -> get link "url" = Some resource ->
  forall fuel acc w,
    fst (paginate fuel self method true access_token kwargs page (JArr acc) w) =
    Diverge.
Proof.
  intros Hsrc Hans Hpage Hlink Hurl.
  induction fuel as [|fuel IH]; intros acc w.
  - rewrite paginate_zero. now rewrite Hlink.
  - destruct (has_token_source_resolved _ _ Hsrc w) as [t Ht].
    rewrite paginate_step, Hlink. unfold link_url. rewrite Hurl, Ht.
    rewrite (Hans (exchanges w) (api_call self method resource kwargs t) eq_refl).
    rewrite (merged_array acc _ Hpage). apply IH.
Qed.

(** X7: the loop has no bound of its own and does not notice a circle.
    When a page of a valid JSON array links to itself, a request with
    [all_pages] is still running after any number of iterations: it never
    returns and never raises. *)
Theorem self_linked_page_never_returns (fuel : nat) (self : GitHub)
  (method resource : string) (page : Response) (link : dict string)
  (access_token : option string) (kwargs : Kwargs) (w : World) :
  has_token_source self access_token ->
  answers self (_get_resource_url self resource) page ->
  array_page page ->
  next_link page = Some link -> get link "url" = Some resource ->
  fst (request fuel self method resource true access_token kwargs w) = Diverge.
Proof.
  intros Hsrc Hans Hpage Hlink Hurl.
  destruct (has_token_source_resolved _ _ Hsrc w) as [t Ht].
  pose proof Hpage as (Hv & Hj & l & Hb).
  rewrite request_run, Ht. cbv zeta.
  rewrite (Hans (exchanges w) (api_call self method resource kwargs t) eq_refl).
  rewrite Hv, Hj. unfold response_json. rewrite Hb. simpl negb. cbv iota.
  pose proof (paginate_self_linked self method resource page link access_token
                kwargs Hsrc Hans Hpage Hlink Hurl fuel l
                (exchanged (token_resolved w access_token)
                   (api_call self method resource kwargs t) page)) as Hd.
  destruct (paginate _ _ _ _ _ _ _ _ _) as [res0 w2].
  simpl in Hd. now rewrite Hd.
Qed.

Lemma loop_page_answers :
  answers Fixture.github_loop "https://api.github.com/loop" Fixture.loop_page.
Proof. intros history c H. simpl. now rewrite H. Qed.

Lemma loop_page_array : array_page Fixture.loop_page.
Proof. repeat split. eexists. reflexivity. Qed.

Lemma getter_registered : Some Example.getter <> None.
Proof. discriminate. Qed.

Lemma self_linked_page_never_returns_witness :
  fst (request 1000 Fixture.github_loop "GET" "https://api.github.com/loop" true
         None Example.no_kwargs Example.w0) = Diverge.
Proof.
  exact (self_linked_page_never_returns 1000 Fixture.github_loop "GET"
           "https://api.github.com/loop" Fixture.loop_page
           [("url", "https://api.github.com/loop"); ("rel", "next")]
           None Example.no_kwargs Example.w0
           (or_intror getter_registered) loop_page_answers loop_page_array
           eq_refl eq_refl).
Defined.

(** ** Search-style pages *)

Lemma set_set {V} (d : dict V) k v v' : set (set d k v) k v' = set d k v'.
Proof.
  induction d as [|[k0 v0] d IH]; simpl.
  - now rewrite String.eqb_refl.
  - destruct (String.eqb k0 k) eqn:E; simpl; rewrite E; [reflexivity|].
    now rewrite IH.
Qed.

Lemma set_id {V} (d : dict V) k v : get d k = Some v -> set d k v = d.
Proof.
  induction d as [|[k0 v0] d IH]; simpl; [discriminate|].
  destruct (String.eqb k0 k).
  - intros H. now injection H as ->.
  - intros H. now rewrite IH.
Qed.

Lemma merged_items (d0 : dict json) (a : list json) (page : Response) :
  items_page page ->
  get d0 "items" = Some (JArr a) ->
  merged (JObj d0) page =
  Return (JObj (set d0 "items" (JArr (a ++ page_item_list page)))).
Proof.
  intros (Hv & Hj & d & l & Hb & Hl) Ha.
  unfold merged, response_json, page_item_list. rewrite Hv, Hj, Hb. simpl.
  unfold mem. rewrite Hl, Ha. reflexivity.
Qed.

Lemma paginate_items_chained (self : GitHub) (method : string)
  (access_token : option string) (kwargs : Kwargs) :
  has_token_source self access_token ->
  forall pages fuel resource page d0 a w,
    chained self ((resource, page) :: pages) ->
    Forall items_page (map snd pages) ->
    get d0 "items" = Some (JArr a) ->
    length pages <= fuel ->
    exists w' new,
      paginate fuel self method true access_token kwargs page (JObj d0) w =
        (Return (JObj (set d0 "items"
                         (JArr (a ++ flat_map page_item_list (map snd pages))))), w') /\
      exchanges w' = (exchanges w ++ new)%list /\
      map snd new = map snd pages.
Proof.
  intros Hsrc pages.
  induction pages as [|[resource' page'] rest IH];
    intros fuel resource page d0 a w Hch Hall Ha Hfuel.
  - destruct Hch as (_ & Hnone & _). exists w, [].
    simpl. rewrite !app_nil_r, (set_id _ _ _ Ha).
    split; [|split; reflexivity].
    destruct fuel; [rewrite paginate_zero | rewrite paginate_step];
      now rewrite Hnone.
  - destruct Hch as (_ & (link & Hlink & Hurl) & Hrest).
    destruct fuel as [|fuel]; [simpl in Hfuel; lia|].
    simpl in Hfuel. apply le_S_n in Hfuel.
    inversion Hall as [|? ? Hpage Hall']; subst.
    destruct (has_token_source_resolved _ _ Hsrc w) as [t Ht].
    pose proof Hrest as (Hans & _).
    specialize (Hans (exchanges w) (api_call self method resource' kwargs t) eq_refl).
    destruct (IH fuel resource' page'
                (set d0 "items" (JArr (a ++ page_item_list page')))
                (a ++ page_item_list page')%list
                (exchanged (token_resolved w access_token)
                   (api_call self method resource' kwargs t) page')
                Hrest Hall' (get_set_same _ _ _) Hfuel)
      as (w' & new & Hrun & Hex & Hsnd).
    exists w', ((api_call self method resource' kwargs t, page') :: new).
    split; [|split].
    + rewrite paginate_step, Hlink. unfold link_url. rewrite Hurl, Ht, Hans.
      rewrite (merged_items _ _ _ Hpage Ha), Hrun. simpl.
      now rewrite set_set, <- app_assoc.
    + rewrite Hex, exchanges_exchanged, <- app_assoc. reflexivity.
    + simpl. now rewrite Hsnd.
Qed.

(** X1: search-style pagination.  When the pages of a resource are served
    in a chain and each is a valid JSON object with a list of [items], a
    request with [all_pages] returns the first page's object with [items]
    replaced by the items of all pages in order, after one exchange per
    page; every other field is the first page's, and the other fields of
    later pages are dropped. *)
Theorem items_pages_concatenate (fuel : nat) (self : GitHub) (method resource : string)
  (page : Response) (pages : list (string * Response)) (d0 : dict json)
  (access_token : option string) (kwargs : Kwargs) (w : World) :
  has_token_source self access_token ->
  chained self ((resource, page) :: pages) ->
  Forall items_page (page :: map snd pages) ->
  json_body page = Some (JObj d0) ->
  length pages <= fuel ->
  exists w' new merged_dict,
    request fuel self method resource true access_token kwargs w =
      (Return (Decoded (JObj merged_dict)), w') /\
    get merged_dict "items" =
      Some (JArr (flat_map page_item_list (page :: map snd pages))) /\
    (forall k, k <> "items" -> get merged_dict k = get d0 k) /\
    keys merged_dict = keys d0 /\
    exchanges w' = (exchanges w ++ new)%list /\
    map snd new = page :: map snd pages.
Proof.
  intros Hsrc Hch Hall Hb Hfuel.
  inversion Hall as [|? ? Hpage Hall']; subst.
  destruct (has_token_source_resolved _ _ Hsrc w) as [t Ht].
  pose proof Hch as (Hans & _).
  specialize (Hans (exchanges w) (api_call self method resource kwargs t) eq_refl).
  pose proof Hpage as (Hv & Hj & d & l & Hb' & Hl).
  assert (d = d0) as -> by congruence.
  destruct (paginate_items_chained self method access_token kwargs Hsrc
              pages fuel resource page d0 l
              (exchanged (token_resolved w access_token)
                 (api_call self method resource kwargs t) page)
              Hch Hall' Hl Hfuel)
    as (w' & new & Hrun & Hex & Hsnd).
  exists w', ((api_call self method resource kwargs t, page) :: new),
    (set d0 "items" (JArr (l ++ flat_map page_item_list (map snd pages)))).
  split; [|split; [|split; [|split; [|split]]]].
  - rewrite request_run, Ht. cbv zeta. rewrite Hans, Hv, Hj.
    unfold response_json. rewrite Hb. simpl negb. cbv iota.
    now rewrite Hrun.
  - rewrite get_set_same. cbn [flat_map map]. unfold page_item_list at 2.
    now rewrite Hb, Hl.
  - intros k Hk. apply get_set_other. congruence.
  - clear - Hl. unfold keys. induction d0 as [|[k0 v0] d0 IH]; [discriminate|].
    simpl in *. destruct (String.eqb k0 "items"); [reflexivity|].
    simpl. now rewrite IH.
  - rewrite Hex, exchanges_exchanged, <- app_assoc. reflexivity.
  - simpl. now rewrite Hsnd.
Qed.

Lemma search_chained :
  chained Fixture.github_search
    [("/search", Fixture.search1);
     ("https://api.github.com/search?page=2", Fixture.search2)].
Proof.
  simpl. repeat split;
    try (intros history c H; simpl; rewrite H; reflexivity);
    eexists; split; reflexivity.
Qed.

Lemma search_items : Forall items_page [Fixture.search1; Fixture.search2].
Proof. repeat constructor; do 2 eexists; split; reflexivity. Qed.

Lemma items_pages_concatenate_witness :
  exists w' new merged_dict,
    request 1 Fixture.github_search "GET" "/search" true None Example.no_kwargs
      Example.w0 = (Return (Decoded (JObj merged_dict)), w') /\
    get merged_dict "items" = Some (Example.ints [1; 2; 3]%Z) /\
    (forall k, k <> "items" ->
       get merged_dict k =
       get [("total_count", JInt 3); ("items", Example.ints [1; 2]%Z)] k) /\
    keys merged_dict = ["total_count"; "items"] /\
    exchanges w' = (exchanges Example.w0 ++ new)%list /\
    map snd new = [Fixture.search1; Fixture.search2].
Proof.
  exact (items_pages_concatenate 1 Fixture.github_search "GET" "/search"
           Fixture.search1 [("https://api.github.com/search?page=2", Fixture.search2)]
           [("total_count", JInt 3); ("items", Example.ints [1; 2]%Z)]
           None Example.no_kwargs Example.w0
           (or_intror getter_registered) search_chained search_items eq_refl (le_n 1)).
Defined.

(** ** Form encoding *)

Lemma replace_app (a b : ascii) (x y : string) :
  PyStr.replace a b (x ++ y) = PyStr.replace a b x ++ PyStr.replace a b y.
Proof. induction x as [|c x IH]; simpl; [reflexivity | now rewrite IH]. Qed.

Lemma all_chars_app (p : ascii -> bool) (x y : string) :
  all_chars p (x ++ y) = all_chars p x && all_chars p y.
Proof.
  induction x as [|c x IH]; simpl; [reflexivity|].
  now rewrite IH, andb_assoc.
Qed.

Lemma all_chars_weaken (p q : ascii -> bool) (s : string) :
  (forall c, p c = true -> q c = true) ->
  all_chars p s = true -> all_chars q s = true.
Proof.
  intros Hpq. induction s as [|c s IH]; simpl; [reflexivity|].
  intros H. apply andb_true_iff in H. destruct H as [Hc Hs].
  now rewrite (Hpq _ Hc), IH.
Qed.

Lemma all_chars_contains (p : ascii -> bool) (c : ascii) (s : string) :
  all_chars p s = true -> p c = false -> PyStr.contains c s = false.
Proof.
  intros Hs Hc. induction s as [|d s IH]; simpl in *; [reflexivity|].
  apply andb_true_iff in Hs. destruct Hs as [Hd Hs].
  destruct (Ascii.eqb_spec c d) as [->|_]; [congruence|]. now apply IH.
Qed.

Lemma all_ascii_all_chars (s : string) :
  PyStr.all_ascii s = all_chars PyStr.is_ascii s.
Proof. induction s as [|c s IH]; simpl; [reflexivity | now rewrite IH]. Qed.

(** One character through [quote], with nothing or the space as [safe]. *)
Lemma piece_encoded (c : ascii) :
  all_chars encoded_char
    (if Urllib.always_safe c || PyStr.contains c ""
     then String c EmptyString else Urllib.percent c) = true /\
  all_chars encoded_char
    (PyStr.replace " " "+"
       (if Urllib.always_safe c || PyStr.contains c " "
        then String c EmptyString else Urllib.percent c)) = true.
Proof.
  destruct c as [[] [] [] [] [] [] [] []]; split; reflexivity.
Qed.

Lemma encoded_char_ascii (c : ascii) :
  encoded_char c = true -> PyStr.is_ascii c = true.
Proof.
  destruct c as [[] [] [] [] [] [] [] []]; intros H; try reflexivity;
    discriminate H.
Qed.

Lemma piece_unquote (c : ascii) (z : string) :
  Urllib.unquote_to_bytes
    (PyStr.replace "+" " "
       (if Urllib.always_safe c || PyStr.contains c ""
        then String c EmptyString else Urllib.percent c) ++ z) =
  String c (Urllib.unquote_to_bytes z).
Proof.
  destruct c as [[] [] [] [] [] [] [] []]; reflexivity.
Qed.

Lemma piece_plus_unquote (c : ascii) (z : string) :
  Urllib.unquote_to_bytes
    (PyStr.replace "+" " "
       (PyStr.replace " " "+"
          (if Urllib.always_safe c || PyStr.contains c " "
           then String c EmptyString else Urllib.percent c)) ++ z) =
  String c (Urllib.unquote_to_bytes z).
Proof.
  destruct c as [[] [] [] [] [] [] [] []]; reflexivity.
Qed.

Lemma quote_plus_encoded (s : string) :
  all_chars encoded_char (Urllib.quote_plus s) = true.
Proof.
  unfold Urllib.quote_plus. destruct (PyStr.contains " " s).
  - induction s as [|c s IH]; [reflexivity|].
    cbn [Urllib.quote]. rewrite replace_app, all_chars_app, IH.
    now rewrite (proj2 (piece_encoded c)).
  - induction s as [|c s IH]; [reflexivity|].
    cbn [Urllib.quote]. rewrite all_chars_app, IH.
    now rewrite (proj1 (piece_encoded c)).
Qed.

(** Undoing [+] and the escapes gives back what [quote_plus] was given. *)
Lemma unquote_quote_plus (s : string) :
  Urllib.unquote_to_bytes (PyStr.replace "+" " " (Urllib.quote_plus s)) = s.
Proof.
  unfold Urllib.quote_plus. destruct (PyStr.contains " " s).
  - induction s as [|c s IH]; [reflexivity|].
    cbn [Urllib.quote]. rewrite !replace_app, piece_plus_unquote.
    now rewrite IH.
  - induction s as [|c s IH]; [reflexivity|].
    cbn [Urllib.quote]. rewrite replace_app, piece_unquote.
    now rewrite IH.
Qed.

Lemma quote_plus_truthy (s : string) :
  PyStr.truthy (Urllib.quote_plus s) = PyStr.truthy s.
Proof.
  destruct s as [|c s]; [reflexivity|].
  unfold Urllib.quote_plus.
  destruct (PyStr.contains " " (String c s)); cbn [Urllib.quote];
    destruct (Urllib.always_safe c || PyStr.contains c _); reflexivity.
Qed.

Lemma unquote_field_quote_plus (s : string) :
  PyStr.all_ascii s = true ->
  Urllib.unquote_field (Urllib.quote_plus s) = Return s.
Proof.
  intros H. unfold Urllib.unquote_field.
  now rewrite unquote_quote_plus, H.
Qed.

(** Splitting what was joined. *)
Lemma split1_app (sep : ascii) (k v : string) :
  PyStr.contains sep k = false ->
  PyStr.split1 sep (k ++ String sep v) = Some (k, v).
Proof.
  induction k as [|c k IH]; simpl; intros H.
  - now rewrite Ascii.eqb_refl.
  - apply orb_false_iff in H. destruct H as [Hc Hk].
    rewrite Ascii.eqb_sym, Hc. now rewrite IH.
Qed.

Lemma split_plain (sep : ascii) (x : string) :
  PyStr.contains sep x = false -> PyStr.split sep x = [x].
Proof.
  induction x as [|c x IH]; simpl; intros H; [reflexivity|].
  apply orb_false_iff in H. destruct H as [Hc Hx].
  rewrite Ascii.eqb_sym, Hc. now rewrite IH.
Qed.

Lemma split_app (sep : ascii) (x y : string) :
  PyStr.contains sep x = false ->
  PyStr.split sep (x ++ String sep y) = x :: PyStr.split sep y.
Proof.
  induction x as [|c x IH]; simpl; intros H.
  - now rewrite Ascii.eqb_refl.
  - apply orb_false_iff in H. destruct H as [Hc Hx].
    rewrite Ascii.eqb_sym, Hc. now rewrite IH.
Qed.

Lemma split_join (sep : ascii) (pieces : list string) :
  pieces <> [] ->
  Forall (fun x => PyStr.contains sep x = false) pieces ->
  PyStr.split sep (PyStr.join (String sep EmptyString) pieces) = pieces.
Proof.
  induction pieces as [|x rest IH]; [congruence|].
  intros _ Hall. inversion Hall as [|? ? Hx Hrest]; subst.
  destruct rest as [|y rest].
  - simpl. now apply split_plain.
  - change (PyStr.join (String sep EmptyString) (x :: y :: rest))
      with (x ++ String sep (PyStr.join (String sep EmptyString) (y :: rest))).
    rewrite split_app by assumption.
    rewrite IH; [reflexivity | discriminate | assumption].
Qed.

Lemma encoded_field (kv : string * string) :
  all_chars query_char
    (Urllib.quote_plus (fst kv) ++ "=" ++ Urllib.quote_plus (snd kv)) = true /\
  PyStr.contains "&"
    (Urllib.quote_plus (fst kv) ++ "=" ++ Urllib.quote_plus (snd kv)) = false.
Proof.
  assert (Hq : forall c, encoded_char c = true -> query_char c = true).
  { intros c H. unfold query_char, encoded_char in *.
    apply orb_true_iff in H. destruct H as [H|H].
    - apply orb_true_iff in H. destruct H as [H|H]; rewrite H; simpl;
        now rewrite ?orb_true_r.
    - rewrite H. now rewrite ?orb_true_r. }
  assert (He : all_chars encoded_char
                 (Urllib.quote_plus (fst kv) ++ Urllib.quote_plus (snd kv)) = true).
  { now rewrite all_chars_app, !quote_plus_encoded. }
  split.
  - rewrite all_chars_app. cbn [append all_chars].
    rewrite (all_chars_weaken _ _ _ Hq (quote_plus_encoded (fst kv))).
    rewrite (all_chars_weaken _ _ _ Hq (quote_plus_encoded (snd kv))).
    reflexivity.
  - apply all_chars_contains
      with (p := fun c => encoded_char c || Ascii.eqb c "="); [|reflexivity].
    rewrite all_chars_app. cbn [append all_chars].
    rewrite (all_chars_weaken encoded_char _ _
               (fun c H => eq_trans (f_equal (fun b => b || _) H) eq_refl)
               (quote_plus_encoded (fst kv))).
    rewrite (all_chars_weaken encoded_char _ _
               (fun c H => eq_trans (f_equal (fun b => b || _) H) eq_refl)
               (quote_plus_encoded (snd kv))).
    reflexivity.
Qed.

Lemma join_query_chars (pieces : list string) :
  Forall (fun x => all_chars query_char x = true) pieces ->
  all_chars query_char (PyStr.join "&" pieces) = true.
Proof.
  induction pieces as [|x rest IH]; [reflexivity|].
  intros Hall. inversion Hall as [|? ? Hx Hrest]; subst.
  destruct rest as [|y rest]; [exact Hx|].
  change (PyStr.join "&" (x :: y :: rest))
    with (x ++ "&" ++ PyStr.join "&" (y :: rest)).
  rewrite all_chars_app, Hx. cbn [append all_chars].
  now rewrite IH.
Qed.

Lemma urlencode_query_chars (params : dict string) :
  all_chars query_char (Urllib.urlencode params) = true.
Proof.
  unfold Urllib.urlencode. apply join_query_chars.
  apply Forall_map. apply Forall_forall. intros kv _.
  exact (proj1 (encoded_field kv)).
Qed.

Lemma parse_fields_encoded (params : dict string) :
  Forall plain_field params ->
  Urllib.parse_fields
    (map (fun kv => Urllib.quote_plus (fst kv) ++ "=" ++ Urllib.quote_plus (snd kv))
         params) = Return params.
Proof.
  induction 1 as [|[k v] rest (Hk & Hv & Hne) Hrest IH]; [reflexivity|].
  cbn [map Urllib.parse_fields fst snd].
  change (Urllib.quote_plus k ++ "=" ++ Urllib.quote_plus v)
    with (Urllib.quote_plus k ++ String "=" (Urllib.quote_plus v)).
  rewrite split1_app.
  2:{ apply all_chars_contains with (p := encoded_char);
        [apply quote_plus_encoded | reflexivity]. }
  rewrite quote_plus_truthy.
  simpl in Hk, Hv, Hne. destruct v as [|c v]; [congruence|]. cbn [PyStr.truthy].
  rewrite (unquote_field_quote_plus k Hk), (unquote_field_quote_plus _ Hv), IH.
  reflexivity.
Qed.

(** What [urlencode] writes, [parse_qsl] reads back, for ASCII fields whose
    values are not empty. *)
Lemma parse_qsl_urlencode (params : dict string) :
  Forall plain_field params ->
  Urllib.parse_qsl (Urllib.urlencode params) = Return params.
Proof.
  intros Hall. unfold Urllib.parse_qsl.
  rewrite all_ascii_all_chars.
  rewrite (all_chars_weaken query_char PyStr.is_ascii _).
  3: apply urlencode_query_chars.
  2:{ intros c. destruct c as [[] [] [] [] [] [] [] []]; intros H;
        try reflexivity; discriminate H. }
  destruct params as [|kv rest]; [reflexivity|].
  unfold Urllib.urlencode. rewrite split_join.
  - now apply parse_fields_encoded.
  - discriminate.
  - apply Forall_map. apply Forall_forall. intros x _.
    exact (proj2 (encoded_field x)).
Qed.

(** X8: whatever its arguments contain, the redirect of [authorize] has a
    query made only of unreserved characters, [%XX] escapes, [+], [=] and
    [&]: no raw space, [#], [?], quote or non-ASCII byte. *)
Theorem authorize_query_chars (self : GitHub)
  (scope redirect_uri state : option string) :
  exists query,
    query_of self (location (authorize self scope redirect_uri state)) query /\
    all_chars query_char query = true /\
    PyStr.all_ascii query = true.
Proof.
  eexists. split; [reflexivity|]. split.
  - apply urlencode_query_chars.
  - rewrite all_ascii_all_chars.
    apply all_chars_weaken with (p := query_char);
      [|apply urlencode_query_chars].
    intros c. destruct c as [[] [] [] [] [] [] [] []]; intros H;
      try reflexivity; discriminate H.
Qed.

(** X9: the query of the redirect decodes to what was put in.  For an ASCII
    client id that is not empty and ASCII arguments, [parse_qsl] reads from
    the query exactly [client_id] and the arguments supplied and not empty,
    with their values, in order. *)
Theorem authorize_query_round_trip (self : GitHub)
  (scope redirect_uri state : option string) :
  PyStr.all_ascii (client_id self) = true -> client_id self <> "" ->
  (forall v, scope = Some v -> PyStr.all_ascii v = true) ->
  (forall v, redirect_uri = Some v -> PyStr.all_ascii v = true) ->
  (forall v, state = Some v -> PyStr.all_ascii v = true) ->
  exists query,
    query_of self (location (authorize self scope redirect_uri state)) query /\
    Urllib.parse_qsl query =
    Return ((("client_id", client_id self) :: supplied "scope" scope) ++
            supplied "redirect_uri" redirect_uri ++ supplied "state" state)%list.
Proof.
  intros Hid Hne Hs Hr Ht.
  exists (Urllib.urlencode
            ((("client_id", client_id self) :: supplied "scope" scope) ++
             supplied "redirect_uri" redirect_uri ++ supplied "state" state)%list).
  split.
  - unfold query_of. apply authorize_supplied.
  - apply parse_qsl_urlencode.
    assert (Hsup : forall name value,
               PyStr.all_ascii name = true ->
               (forall v, value = Some v -> PyStr.all_ascii v = true) ->
               Forall plain_field (supplied name value)).
    { intros name [v|] Hn Hv; simpl; [|constructor].
      destruct v as [|c v]; simpl; [constructor|].
      constructor; [|constructor]. split; [exact Hn|].
      split; [exact (Hv _ eq_refl) | discriminate]. }
    constructor; [repeat split; auto|].
    apply Forall_app. split; [now apply Hsup|].
    apply Forall_app. split; now apply Hsup.
Qed.

Lemma authorize_query_round_trip_witness :
  exists query,
    query_of Example.github
      (location (authorize Example.github (Some "user,repo")
                   (Some "http://localhost/callback?a=1&b=2") (Some "x y+z")))
      query /\
    Urllib.parse_qsl query =
    Return [("client_id", "123"); ("scope", "user,repo");
            ("redirect_uri", "http://localhost/callback?a=1&b=2");
            ("state", "x y+z")].
Proof.
  refine (authorize_query_round_trip Example.github (Some "user,repo")
            (Some "http://localhost/callback?a=1&b=2") (Some "x y+z")
            eq_refl _ _ _ _).
  - discriminate.
  - intros v H. injection H as <-. reflexivity.
  - intros v H. injection H as <-. reflexivity.
  - intros v H. injection H as <-. reflexivity.
Defined.

(** ** The token of the exchange *)

(** What [parse_qs] files under a name: the values of the pairs of that
    name, after those already there. *)
Lemma get_group (pairs : list (string * string)) :
  forall parsed k,
    get (Urllib.group pairs parsed) k =
    match get parsed k with
    | Some vs => Some (vs ++ values_of k pairs)%list
    | None =>
        match values_of k pairs with
        | [] => None
        | vs => Some vs
        end
    end.
Proof.
  unfold values_of.
  induction pairs as [|[n v] rest IH]; intros parsed k; simpl.
  - destruct (get parsed k); [now rewrite app_nil_r | reflexivity].
  - destruct (get parsed n) as [vs0|] eqn:En; rewrite IH, get_set;
      destruct (String.eqb_spec n k) as [->|Hne]; simpl.
    + rewrite En. now rewrite <- app_assoc.
    + reflexivity.
    + rewrite En. reflexivity.
    + reflexivity.
Qed.

Lemma unquote_to_bytes_nonempty (s : string) :
  s <> "" -> Urllib.unquote_to_bytes s <> "".
Proof.
  destruct s as [|c s]; [congruence|]. intros _. simpl.
  destruct (Ascii.eqb c "%"); [|discriminate].
  destruct s as [|a [|b s']]; try discriminate.
  destruct (Urllib.hex_value a), (Urllib.hex_value b); discriminate.
Qed.

Lemma unquote_field_nonempty (s b : string) :
  PyStr.truthy s = true -> Urllib.unquote_field s = Return b -> b <> "".
Proof.
  unfold Urllib.unquote_field. intros Hs.
  destruct (PyStr.all_ascii _); [|discriminate].
  intros H. injection H as <-. apply unquote_to_bytes_nonempty.
  destruct s; [discriminate Hs | discriminate].
Qed.

Lemma parse_fields_values (fields : list string) :
  forall pairs, Urllib.parse_fields fields = Return pairs ->
  Forall (fun p => PyStr.all_ascii (snd p) = true /\ snd p <> "") pairs.
Proof.
  induction fields as [|nv rest IH]; simpl; intros pairs H.
  - injection H as <-. constructor.
  - destruct (PyStr.split1 "=" nv) as [[n v]|]; [|auto].
    destruct (PyStr.truthy v) eqn:Etr; [|auto].
    destruct (Urllib.unquote_field n) as [name| |]; try discriminate.
    destruct (Urllib.unquote_field v) as [value| |] eqn:Ev; try discriminate.
    destruct (Urllib.parse_fields rest) as [r| |]; try discriminate.
    injection H as <-. constructor; [|auto]. simpl. split.
    + eapply unquote_field_ascii; eassumption.
    + eapply unquote_field_nonempty; eassumption.
Qed.

(** The outcome of the exchange, from the pairs [parse_qsl] reads. *)
Lemma handle_response_pairs (self : GitHub) (args : dict string) (w : World)
  (pairs : list (string * string)) :
  Urllib.parse_qsl
    (content (session self (exchanges w) (token_call self args))) = Return pairs ->
  fst (_handle_response self args w) =
  Return (hd_error (values_of "access_token" pairs)).
Proof.
  intros Hp. rewrite handle_response_run. unfold Urllib.parse_qs.
  rewrite Hp. simpl. unfold token_of. rewrite get_group. simpl.
  destruct (values_of "access_token" pairs); reflexivity.
Qed.

(** X10: of several [access_token] fields in the body of the token
    endpoint the first one with a value wins: the exchange returns the value
    of the first decoded pair of that name, whatever comes before or after
    it, and null when there is no such pair. *)
Theorem exchange_first_access_token (self : GitHub) (args : dict string) (w : World)
  (pairs : list (string * string)) :
  Urllib.parse_qsl
    (content (session self (exchanges w) (token_call self args))) = Return pairs ->
  fst (_handle_response self args w) =
  Return (hd_error (values_of "access_token" pairs)) /\
  (forall before t after,
     pairs = (before ++ ("access_token", t) :: after)%list ->
     values_of "access_token" before = [] ->
     fst (_handle_response self args w) = Return (Some t)).
Proof.
  intros Hp. split; [now apply handle_response_pairs|].
  intros before t after -> Hb. rewrite (handle_response_pairs _ _ _ _ Hp).
  unfold values_of in *. rewrite filter_app, map_app, Hb. reflexivity.
Qed.

Lemma exchange_first_access_token_witness :
  fst (_handle_response
         (Example.github_oauth
            "scope=repo&access_token=&access_token=first&access_token=second")
         [("code", "KODE")] Example.w0) = Return (Some "first").
Proof.
  exact (proj2 (exchange_first_access_token
                  (Example.github_oauth
                     "scope=repo&access_token=&access_token=first&access_token=second")
                  [("code", "KODE")] Example.w0
                  [("scope", "repo"); ("access_token", "first");
                   ("access_token", "second")] eq_refl)
           [("scope", "repo")] "first" [("access_token", "second")]
           eq_refl eq_refl).
Defined.

(** X11: a token returned by the exchange is never the empty string and is
    made of ASCII characters only: a blank [access_token=] field counts as
    absent. *)
Theorem exchange_token_not_empty (self : GitHub) (args : dict string) (w : World)
  (t : string) :
  fst (_handle_response self args w) = Return (Some t) ->
  t <> "" /\ PyStr.all_ascii t = true.
Proof.
  rewrite handle_response_run. simpl. unfold Urllib.parse_qs, Urllib.parse_qsl.
  destruct (PyStr.all_ascii (content _)); [|discriminate].
  destruct (Urllib.parse_fields _) as [pairs| |] eqn:Ep; try discriminate.
  intros H. injection H as H. unfold token_of in H. rewrite get_group in H.
  simpl in H.
  assert (Hin : In t (values_of "access_token" pairs)).
  { destruct (values_of "access_token" pairs) as [|t0 vs]; [discriminate|].
    injection H as <-. now left. }
  unfold values_of in Hin. apply in_map_iff in Hin.
  destruct Hin as ([n v] & Hv & Hin). simpl in Hv. subst v.
  apply filter_In in Hin. destruct Hin as [Hin _].
  apply parse_fields_values in Ep.
  rewrite Forall_forall in Ep. destruct (Ep _ Hin) as [Ha Hne]. auto.
Qed.

Lemma exchange_token_not_empty_witness :
  "asdf" <> "" /\ PyStr.all_ascii "asdf" = true.
Proof.
  exact (exchange_token_not_empty
           (Example.github_oauth "access_token=asdf&token_type=bearer")
           [("code", "KODE")] Example.w0 "asdf" eq_refl).
Defined.

(** ** Registering the token getter *)

(** X12: registering a getter replaces the one registered before and
    nothing else.  After [access_token_getter], a request without explicit
    token no longer raises [NotImplementedError]: it sends one call to the
    same URL, through the same session, authorized by the answer of the
    getter registered last. *)
Theorem registered_getter_is_used (self : GitHub) (f g : nat -> option string)
  (method resource : string) (kwargs : Kwargs) (w : World) :
  raw_request (access_token_getter (access_token_getter self f) g)
    method resource None kwargs w =
  raw_request (access_token_getter self g) method resource None kwargs w /\
  exists c r w',
    raw_request (access_token_getter self g) method resource None kwargs w =
      (Return r, w') /\
    authorization_of c = Some ("token " ++ percent_s (g (getter_calls w))) /\
    call_url c = _get_resource_url self resource /\
    r = session self (exchanges w) c /\
    exchanges w' = (exchanges w ++ [(c, r)])%list /\
    getter_calls w' = S (getter_calls w).
Proof.
  split; [reflexivity|].
  rewrite raw_request_run. simpl.
  eexists (api_call (access_token_getter self g) method resource kwargs
             (percent_s (g (getter_calls w)))), _, _.
  split; [reflexivity|].
  split; [unfold authorization_of; simpl; apply get_set_same|].
  split; [reflexivity|]. split; [reflexivity|]. split; reflexivity.
Qed.

(** ** More on resource URLs *)

Lemma startswith_extend (x y p : string) :
  PyStr.startswith x p = true -> PyStr.startswith (x ++ y) p = true.
Proof.
  unfold PyStr.startswith. revert x. induction p as [|c p IH]; intros x H.
  - destruct (x ++ y); reflexivity.
  - destruct x as [|d x]; simpl in *; [discriminate|].
    destruct (ascii_dec c d); [now apply IH | discriminate].
Qed.

Lemma drop_last_prefix (s : string) : exists e, s = PyStr.drop_last s ++ e.
Proof.
  induction s as [|c s (e & IH)]; [now exists ""|].
  cbn [PyStr.drop_last]. destruct (PyStr.all_continuation s).
  - now exists (String c s).
  - exists e. cbn [append]. now rewrite <- IH.
Qed.

(** X13: for a resource that starts with [/], the last character of the
    base is dropped whatever it is, a slash or not, one byte long or more.
    Against a base URL configured without the final slash the host loses
    its last character; against an empty base the resource is used alone. *)
Theorem slash_resource_drops_last_of_base (self : GitHub) (resource : string) :
  is_http resource = false ->
  PyStr.startswith resource "/" = true ->
  (forall b ch, base_url self = b ++ ch -> PyStr.one_char ch = true ->
     _get_resource_url self resource = b ++ resource) /\
  (base_url self = "" -> _get_resource_url self resource = resource).
Proof.
  unfold is_http, _get_resource_url. intros -> ->. split.
  - intros b ch -> Hch. now rewrite drop_last_char.
  - intros ->. reflexivity.
Qed.

Lemma slash_resource_drops_last_of_base_witness :
  _get_resource_url github_no_slash "/user" = "https://api.github.co/user" /\
  _get_resource_url github_cafe "/x" = "https://example.org/caf/x".
Proof.
  split.
  - exact (proj1 (slash_resource_drops_last_of_base github_no_slash "/user"
                    eq_refl eq_refl)
             "https://api.github.co" "m" eq_refl eq_refl).
  - exact (proj1 (slash_resource_drops_last_of_base github_cafe "/x"
                    eq_refl eq_refl)
             "https://example.org/caf"
             (String "195"%char (String "169"%char "")) eq_refl eq_refl).
Defined.

(** X14: resolving is idempotent.  When the base URL, even without its last
    character, starts with [http://] or [https://], a URL the client has
    resolved resolves to itself: the absolute URLs of [next] links are
    requested as they are. *)
Theorem get_resource_url_idempotent (self : GitHub) (resource : string) :
  is_http (PyStr.drop_last (base_url self)) = true ->
  _get_resource_url self (_get_resource_url self resource) =
  _get_resource_url self resource.
Proof.
  intros Hbase.
  assert (Habs : is_http (_get_resource_url self resource) = true).
  { unfold _get_resource_url.
    destruct (PyStr.startswith resource "http://" ||
              PyStr.startswith resource "https://") eqn:E; [exact E|].
    assert (Hext : forall x y, is_http x = true -> is_http (x ++ y) = true).
    { unfold is_http. intros x y H. apply orb_true_iff in H.
      apply orb_true_iff. destruct H as [H|H]; [left | right];
        now apply startswith_extend. }
    destruct (PyStr.startswith resource "/").
    - now apply Hext.
    - apply Hext. destruct (drop_last_prefix (base_url self)) as [e He].
      rewrite He. now apply Hext. }
  unfold is_http in Habs. unfold _get_resource_url at 1. now rewrite Habs.
Qed.

Lemma get_resource_url_idempotent_witness :
  _get_resource_url Example.github (_get_resource_url Example.github "/user") =
  _get_resource_url Example.github "/user".
Proof.
  exact (get_resource_url_idempotent Example.github "/user" eq_refl).
Defined.

(** ** The text of an error *)

(** X15: the error raised for an invalid first response prints as
    [status: message] when the body is an object whose [message] is a
    string, and as [status: None] when the body does not decode, is not an
    object or has no [message]; printing never fails. *)
Theorem invalid_response_error_text (repr : json -> string) (fuel : nat)
  (self : GitHub) (method resource : string) (all_pages : bool)
  (access_token : option string) (kwargs : Kwargs) (w : World)
  (t : string) (r : Response) :
  resolved_token self access_token w = Some t ->
  session self (exchanges w) (api_call self method resource kwargs t) = r ->
  is_valid_response r = false ->
  fst (request fuel self method resource all_pages access_token kwargs w) =
    Raise (GitHubError r) /\
  (forall d m, json_body r = Some (JObj d) -> get d "message" = Some (JStr m) ->
     GitHubError_str repr r = str_int (status_code r) ++ ": " ++ m) /\
  (json_body r = None ->
     GitHubError_str repr r = str_int (status_code r) ++ ": None") /\
  (forall body, json_body r = Some body -> is_dict body = false ->
     GitHubError_str repr r = str_int (status_code r) ++ ": None") /\
  (forall d, json_body r = Some (JObj d) -> get d "message" = None ->
     GitHubError_str repr r = str_int (status_code r) ++ ": None").
Proof.
  intros Ht Hr Hv. split.
  - rewrite request_run, Ht. cbv zeta. now rewrite Hr, Hv.
  - unfold GitHubError_str, response_json, getitem. repeat split.
    + intros d m -> ->. reflexivity.
    + intros ->. reflexivity.
    + intros body -> Hd. destruct body; try reflexivity. discriminate Hd.
    + intros d -> ->. reflexivity.
Qed.

Lemma invalid_response_error_text_witness :
  fst (request 0 github_404 "GET" "/nowhere" false None Example.no_kwargs
         Example.w0) = Raise (GitHubError Example.not_found) /\
  GitHubError_str no_repr Example.not_found = "404: Not Found".
Proof.
  split.
  - exact (proj1 (invalid_response_error_text no_repr 0 github_404 "GET" "/nowhere"
                    false None Example.no_kwargs Example.w0 "TOK123"
                    Example.not_found eq_refl eq_refl eq_refl)).
  - exact (proj1 (proj2 (invalid_response_error_text no_repr 0 github_404 "GET"
                           "/nowhere" false None Example.no_kwargs Example.w0
                           "TOK123" Example.not_found eq_refl eq_refl eq_refl))
             [("message", JStr "Not Found")] "Not Found" eq_refl eq_refl).
Defined.

(** ** Configuration *)

(** X16: with only the client id and secret configured, the client talks to
    GitHub: relative resources resolve under [https://api.github.com/], with
    or without leading slash, the redirect goes to
    [https://github.com/login/oauth/authorize] and the code is exchanged at
    [https://github.com/login/oauth/access_token] with the configured id
    and secret; a getter registered before is kept. *)
Theorem init_app_defaults (self : GitHub) (config : dict string)
  (client : list (HttpCall * Response) -> HttpCall -> Response)
  (id secret : string) :
  get config "GITHUB_CLIENT_ID" = Some id ->
  get config "GITHUB_CLIENT_SECRET" = Some secret ->
  get config "GITHUB_BASE_URL" = None ->
  get config "GITHUB_AUTH_URL" = None ->
  exists github,
    init_app self config client = (Return tt, github) /\
    (forall r, is_http r = false -> PyStr.startswith r "/" = false ->
       _get_resource_url github r = "https://api.github.com/" ++ r /\
       _get_resource_url github ("/" ++ r) = "https://api.github.com/" ++ r) /\
    location (authorize github None None None) =
      "https://github.com/login/oauth/authorize?" ++
      Urllib.urlencode [("client_id", id)] /\
    (forall args,
       call_url (token_call github args) =
         "https://github.com/login/oauth/access_token" /\
       call_data (token_call github args) =
         Some [("code", get args "code"); ("client_id", Some id);
               ("client_secret", Some secret)]) /\
    get_access_token github = get_access_token self /\
    session github = client.
Proof.
  intros Hid Hsec Hbase Hauth. unfold init_app.
  rewrite Hid, Hsec, Hbase, Hauth. eexists. split; [reflexivity|].
  split; [|repeat split].
  intros r Hr Hs. unfold is_http in Hr. unfold _get_resource_url. simpl base_url.
  rewrite Hr, Hs. split; [reflexivity|].
  cbn [append PyStr.startswith String.prefix].
  destruct (ascii_dec "h" "/") as [E|_]; [discriminate E|].
  destruct (ascii_dec "/" "/") as [_|N]; [|congruence].
  cbn [orb]. destruct r; reflexivity.
Qed.

Lemma init_app_defaults_witness :
  exists github,
    init_app Example.github
      [("GITHUB_CLIENT_ID", "abc"); ("GITHUB_CLIENT_SECRET", "shh")]
      (Example.serve []) = (Return tt, github) /\
    _get_resource_url github "user" = "https://api.github.com/user" /\
    _get_resource_url github "/user" = "https://api.github.com/user" /\
    location (authorize github None None None) =
      "https://github.com/login/oauth/authorize?client_id=abc".
Proof.
  destruct (init_app_defaults Example.github
              [("GITHUB_CLIENT_ID", "abc"); ("GITHUB_CLIENT_SECRET", "shh")]
              (Example.serve []) "abc" "shh" eq_refl eq_refl eq_refl eq_refl)
    as (github & Hinit & Hurl & Hloc & _).
  exists github. split; [exact Hinit|].
  destruct (Hurl "user" eq_refl eq_refl) as [H1 H2].
  split; [exact H1|]. split; [exact H2 | exact Hloc].
Defined.

(** X17: a configuration without client id makes [init_app] raise
    [KeyError] for it and leaves the instance as it was; with the id but
    without the secret it raises [KeyError] for the secret after the id has
    been assigned, everything else being as before.  The two URLs are
    optional: when configured they replace the defaults. *)
Theorem init_app_missing_key (self : GitHub) (config : dict string)
  (client : list (HttpCall * Response) -> HttpCall -> Response) :
  (get config "GITHUB_CLIENT_ID" = None ->
   init_app self config client = (Raise (KeyError "GITHUB_CLIENT_ID"), self)) /\
  (forall id, get config "GITHUB_CLIENT_ID" = Some id ->
   get config "GITHUB_CLIENT_SECRET" = None ->
   exists github,
     init_app self config client = (Raise (KeyError "GITHUB_CLIENT_SECRET"), github) /\
     client_id github = id /\
     client_secret github = client_secret self /\
     base_url github = base_url self /\
     auth_url github = auth_url self /\
     session github = session self /\
     get_access_token github = get_access_token self) /\
  (forall github base auth,
     init_app self config client = (Return tt, github) ->
     get config "GITHUB_BASE_URL" = Some base ->
     get config "GITHUB_AUTH_URL" = Some auth ->
     base_url github = base /\ auth_url github = auth).
Proof.
  unfold init_app. split; [|split].
  - intros ->. reflexivity.
  - intros id -> ->. eexists. split; [reflexivity|]. repeat split.
  - intros github base auth Hinit Hbase Hauth.
    destruct (get config "GITHUB_CLIENT_ID"); [|discriminate].
    destruct (get config "GITHUB_CLIENT_SECRET"); [|discriminate].
    injection Hinit as <-. simpl. now rewrite Hbase, Hauth.
Qed.

Lemma init_app_missing_key_witness :
  init_app Example.github [("GITHUB_CLIENT_SECRET", "shh")] (Example.serve []) =
    (Raise (KeyError "GITHUB_CLIENT_ID"), Example.github) /\
  exists github,
    init_app Example.github [("GITHUB_CLIENT_ID", "abc")] (Example.serve []) =
      (Raise (KeyError "GITHUB_CLIENT_SECRET"), github) /\
    client_id github = "abc" /\
    client_secret github = "SEKRET".
Proof.
  split.
  - exact (proj1 (init_app_missing_key Example.github
                    [("GITHUB_CLIENT_SECRET", "shh")] (Example.serve [])) eq_refl).
  - destruct (proj1 (proj2 (init_app_missing_key Example.github
                              [("GITHUB_CLIENT_ID", "abc")] (Example.serve [])))
                "abc" eq_refl eq_refl) as (github & Hinit & Hid & Hsec & _).
    exists github. split; [exact Hinit|]. split; [exact Hid | exact Hsec].
Defined.

(** ** The shortcuts *)

(** Every call of a request is the call [raw_request] builds from the
    arguments of the request, at some URL and with some token. *)
Lemma request_calls (fuel : nat) (self : GitHub) (method resource : string)
  (all_pages : bool) (access_token : option string) (kwargs : Kwargs) (w : World) :
  every_exchange (fun c => exists url t, c = api_call self method url kwargs t)
    (request fuel self method resource all_pages access_token kwargs) w.
Proof.
  intros res w' H. apply request_fetches in H.
  destruct H as [(_ & -> & ->) | (t & c & r & Ht & Hc & Hr & H)].
  { exists []. rewrite app_nil_r. split; [reflexivity | intros ? ? []]. }
  destruct H as [(_ & _ & ->) | [(_ & _ & _ & ->) | [(_ & _ & _ & _ & ->)
                 | (_ & _ & acc & new & res0 & _ & Hrun & _)]]];
    try solve [exists [(c, r)]; rewrite exchanges_exchanged;
               split; [reflexivity|];
               intros c1 r1 [Heq|[]]; injection Heq as <- <-; eauto].
  exists ((c, r) :: new).
  pose proof Hrun as Hw. apply fetches_world in Hw. destruct Hw as (He & _ & _).
  rewrite exchanges_exchanged, <- app_assoc in He. split; [exact He|].
  intros c1 r1 [Heq|Hin].
  - injection Heq as <- <-. eauto.
  - eapply fetches_calls; eauto.
Qed.

Lemma every_exchange_impl (P Q : HttpCall -> Prop) (m : M ApiResult) (w : World) :
  (forall c, P c -> Q c) -> every_exchange P m w -> every_exchange Q m w.
Proof.
  intros HPQ HP res w' H. destruct (HP res w' H) as (new & He & Hall).
  exists new. split; [exact He|]. intros c r Hin. apply HPQ. eauto.
Qed.

(** The call of [post], [patch] and [put], once the headers are a dict. *)
Lemma api_call_json (self : GitHub) (verb url body t : string)
  (caller extra : dict string) :
  json_call verb body caller extra
    (api_call self verb url
       {| kw_headers := Some (Some (setdefault caller "Content-Type" "application/json"));
          kw_extra := ("data", body) :: extra |} t).
Proof.
  unfold json_call. split; [reflexivity|]. split; [reflexivity|].
  eexists. split; [reflexivity|]. simpl. unfold setdefault. split.
  - rewrite get_set_other by discriminate.
    destruct (get caller "Content-Type") as [v|] eqn:E; [exact E|].
    apply get_set_same.
  - intros name Ha Hc. rewrite get_set_other by congruence.
    destruct (get caller "Content-Type"); [reflexivity|].
    apply get_set_other. congruence.
Qed.

(** X18: [post], [patch] and [put] send JSON on every exchange, pagination
    fetches included: their own verb, the encoded payload as [data] before
    the caller's other keyword arguments, the caller's [Content-Type] when
    there is one under exactly that name and [application/json] otherwise,
    and the caller's other headers. *)
Theorem json_shortcuts_send_json (dumps : json -> string) (fuel : nat)
  (self : GitHub) (resource : string) (data : json) (all_pages : bool)
  (access_token : option string) (kwargs : Kwargs) (w : World) :
  kw_headers kwargs <> Some None ->
  every_exchange
    (json_call "POST" (dumps data) (_pop_headers kwargs) (kw_extra kwargs))
    (post dumps fuel self resource data all_pages access_token kwargs) w /\
  every_exchange
    (json_call "PATCH" (dumps data) (_pop_headers kwargs) (kw_extra kwargs))
    (patch dumps fuel self resource data all_pages access_token kwargs) w /\
  every_exchange
    (json_call "PUT" (dumps data) (_pop_headers kwargs) (kw_extra kwargs))
    (put dumps fuel self resource data all_pages access_token kwargs) w.
Proof.
  intros Hh.
  assert (Hd : dict_of_headers (kw_headers kwargs) = Return (_pop_headers kwargs)).
  { unfold dict_of_headers, _pop_headers.
    destruct (kw_headers kwargs) as [[h|]|]; [reflexivity | congruence | reflexivity]. }
  repeat split; intros res w' H;
    unfold post, patch, put, bind, lift in H; rewrite Hd in H;
    revert res w' H;
    (eapply every_exchange_impl; [|apply request_calls]);
    intros c (url & t & ->); apply api_call_json.
Qed.

Lemma json_shortcuts_send_json_witness :
  exists new,
    exchanges (snd (post dumps_example 2 Example.github "/items" JNull true None
                      accept_kwargs Example.w0)) =
      (exchanges Example.w0 ++ new)%list /\
    forall c r, In (c, r) new ->
      json_call "POST" "null" [("Accept", "application/vnd.github+json")]
        [("timeout", "5")] c.
Proof.
  refine (proj1 (json_shortcuts_send_json dumps_example 2 Example.github "/items"
                   JNull true None accept_kwargs Example.w0 _) _ _ eq_refl).
  discriminate.
Defined.

(** X19: [headers=None] is accepted by [request] and refused by the JSON
    shortcuts.  With a token at hand, [raw_request] makes its call with
    [Authorization] as only header; [post], [patch] and [put] raise
    [TypeError] before anything happens: no call is made and the token
    getter is not invoked. *)
Theorem json_shortcuts_refuse_none_headers (dumps : json -> string) (fuel : nat)
  (self : GitHub) (resource : string) (data : json) (all_pages : bool)
  (access_token : option string) (kwargs : Kwargs) (w : World) (t : string) :
  kw_headers kwargs = Some None ->
  resolved_token self access_token w = Some t ->
  post dumps fuel self resource data all_pages access_token kwargs w =
    (Raise TypeError, w) /\
  patch dumps fuel self resource data all_pages access_token kwargs w =
    (Raise TypeError, w) /\
  put dumps fuel self resource data all_pages access_token kwargs w =
    (Raise TypeError, w) /\
  exists c r w',
    raw_request self "POST" resource access_token kwargs w = (Return r, w') /\
    exchanges w' = (exchanges w ++ [(c, r)])%list /\
    call_method c = "POST" /\
    call_headers c = Some [("Authorization", "token " ++ t)].
Proof.
  intros Hh Ht. unfold post, patch, put, bind, lift. rewrite Hh. simpl.
  repeat (split; [reflexivity|]).
  rewrite raw_request_run, Ht.
  eexists (api_call self "POST" resource kwargs t), _, _.
  split; [reflexivity|]. split; [apply exchanges_exchanged|].
  split; [reflexivity|]. unfold api_call, _pop_headers. rewrite Hh. reflexivity.
Qed.

Lemma json_shortcuts_refuse_none_headers_witness :
  post dumps_example 2 Example.github "/items" JNull true None headers_none
    Example.w0 = (Raise TypeError, Example.w0) /\
  exists r w',
    raw_request Example.github "POST" "/items" None headers_none Example.w0 =
      (Return r, w') /\
    length (exchanges w') = 1.
Proof.
  destruct (json_shortcuts_refuse_none_headers dumps_example 2 Example.github
              "/items" JNull true None headers_none Example.w0 "TOK123"
              eq_refl eq_refl) as (Hpost & _ & _ & c & r & w' & Hraw & Hex & _).
  split; [exact Hpost|]. exists r, w'. split; [exact Hraw|].
  rewrite Hex. reflexivity.
Defined.

(** X20: [head] and [delete] add nothing to a request.  Every exchange of
    [head] carries the verb [HEAD] and every exchange of [delete] the verb
    [DELETE], without payload, with the caller's keyword arguments and the
    caller's headers other than [Authorization]. *)
Theorem head_and_delete_calls (fuel : nat) (self : GitHub) (resource : string)
  (all_pages : bool) (access_token : option string) (kwargs : Kwargs) (w : World) :
  every_exchange (plain_call "HEAD" kwargs)
    (head fuel self resource all_pages access_token kwargs) w /\
  every_exchange (plain_call "DELETE" kwargs)
    (delete fuel self resource all_pages access_token kwargs) w.
Proof.
  split; unfold head, delete;
    (eapply every_exchange_impl; [|apply request_calls]);
    intros c (url & t & ->); unfold plain_call;
    repeat split; eexists; (split; [reflexivity|]);
    intros name Hne; apply get_set_other; congruence.
Qed.
